(** * Reconcilers of the Argo CD operator: a shallow embedding

    The development follows the Go sources:
    - [controllers/argocd/service.go] (the per-kind service reconcilers and
      [ensureAutoTLSAnnotation]),
    - [controllers/argocd/redis/configmap.go] ([reconcileHAConfigMap],
      [deleteConfigMap]),
    - [controllers/argocd/applicationset/applicationset.go]
      ([DeleteResources]),
    - [pkg/permissions/clusterrolebinding.go] ([DeleteClusterRoleBinding],
      [UpdateClusterRoleBinding]),
    - [api/v1alpha1/argocd_types.go] (the finalizer test and the resource
      tracking methods),
    - the service helpers of the v1alpha1 controller.

    Go maps are [gmap]s, a Go [error] value is an [option error] ([None] is
    [nil]), and every function that talks to the cluster is a state
    transformer over a [World]: the objects of the store, the list of calls
    issued to it, and the log. *)

From Stdlib Require Import ZArith.
From stdpp Require Import gmap strings list fin_maps pretty.

Local Open Scope Z_scope.
Local Open Scope string_scope.
Local Open Scope list_scope.

(** ** Errors *)

(** [metav1.StatusReason], as far as the reconcilers tell reasons apart. *)
Inductive StatusReason :=
| StatusReasonNotFound
| StatusReasonAlreadyExists
| StatusReasonConflict
| StatusReasonInternalError.

(** A Go [error]: an API status error, a plain message, or an error wrapped
    with a message by [errors.Wrap] of github.com/pkg/errors. *)
Inductive error :=
| StatusError (reason : StatusReason)
| ErrorString (msg : string)
| Wrap (cause : error) (msg : string).

(** [apierrors.IsNotFound]: looks through wrapping for a NotFound status. *)
Fixpoint IsNotFound (err : error) : bool :=
  match err with
  | StatusError StatusReasonNotFound => true
  | StatusError _ => false
  | ErrorString _ => false
  | Wrap cause _ => IsNotFound cause
  end.

(** ** Objects *)

Record OwnerReference := {
  OwnerKind : string;
  OwnerName : string;
  Controller : bool
}.

(** [metav1.ObjectMeta]. [Annotations] keeps Go's distinction between a nil
    map ([None]) and an allocated one, which [ensureAutoTLSAnnotation]
    tests. *)
Record ObjectMeta := {
  Name : string;
  Namespace : string;
  Labels : gmap string string;
  Annotations : option (gmap string string);
  OwnerReferences : list OwnerReference;
  DeletionTimestamp : option Z
}.

Inductive IntOrString :=
| FromInt (i : Z)
| FromString (s : string).

Record ServicePort := {
  PortName : string;
  Port : Z;
  Protocol : string;
  TargetPort : IntOrString
}.

Record ServiceSpec := {
  Selector : gmap string string;
  Ports : list ServicePort;
  PublishNotReadyAddresses : bool;
  ServiceType : string
}.

(** [corev1.Service] *)
Record Service := {
  svcMeta : ObjectMeta;
  svcSpec : ServiceSpec
}.

(** [corev1.ConfigMap] *)
Record ConfigMap := {
  cmMeta : ObjectMeta;
  cmData : gmap string string
}.

Definition emptyServiceSpec : ServiceSpec :=
  {| Selector := ∅; Ports := []; PublishNotReadyAddresses := false; ServiceType := "" |}.

Definition withAnnotations (m : ObjectMeta) (a : option (gmap string string)) : ObjectMeta :=
  {| Name := Name m; Namespace := Namespace m; Labels := Labels m;
     Annotations := a; OwnerReferences := OwnerReferences m;
     DeletionTimestamp := DeletionTimestamp m |}.

Definition withOwnerReferences (m : ObjectMeta) (o : list OwnerReference) : ObjectMeta :=
  {| Name := Name m; Namespace := Namespace m; Labels := Labels m;
     Annotations := Annotations m; OwnerReferences := o;
     DeletionTimestamp := DeletionTimestamp m |}.

Definition svcWithMeta (svc : Service) (m : ObjectMeta) : Service :=
  {| svcMeta := m; svcSpec := svcSpec svc |}.

Definition svcWithSpec (svc : Service) (s : ServiceSpec) : Service :=
  {| svcMeta := svcMeta svc; svcSpec := s |}.

(** Reading [svc.Annotations]: a nil map reads as an empty one. *)
Definition svcAnnotations (svc : Service) : gmap string string :=
  default ∅ (Annotations (svcMeta svc)).

Definition svcSetAnnotations (svc : Service) (a : option (gmap string string)) : Service :=
  svcWithMeta svc (withAnnotations (svcMeta svc) a).

(** ** The instance *)

Record ArgoCDSpec := {
  GrafanaEnabled : bool;       (* cr.Spec.Grafana.Enabled *)
  HAEnabled : bool;            (* cr.Spec.HA.Enabled *)
  RedisAutoTLS : string        (* cr.Spec.Redis.AutoTLS *)
}.

Record ArgoCD := {
  crMeta : ObjectMeta;
  crSpec : ArgoCDSpec
}.

(** [WantsAutoTLS] of [ArgoCDRedisSpec] *)
Definition RedisWantsAutoTLS (cr : ArgoCD) : bool :=
  String.eqb (RedisAutoTLS (crSpec cr)) "openshift".

(** ** Constants of package [common] *)

(** [common.ServiceBetaOpenshiftKeyCertSecret]; the value is the literal that
    [EnsureAutoTLSAnnotation] of controllers/argocd/service.go uses for the
    same annotation. *)
Definition ServiceBetaOpenshiftKeyCertSecret : string :=
  "service.beta.openshift.io/serving-cert-secret-name".

(** The declarations of packages [common] and [util] that the reconcilers
    use and whose values are fixed elsewhere in the operator. *)
Record Common := {
  DefaultLabels : string -> string -> string -> gmap string string;
  NameWithSuffix : string -> string -> string;   (* util.NameWithSuffix *)
  AppK8sKeyName : string;
  AppK8sKeyComponent : string;
  StatefulSetK8sKeyPodName : string;
  ServiceAlphaK8sKeyTolerateUnreadyEndpoints : string;
  ArgoCDRedisServerTLSSecretName : string;
  ArgoCDRedisHAConfigMapName : string;
  ArgoCDDefaultRedisHAReplicas : Z;      (* int32 *)
  ArgoCDDefaultRedisPort : Z;
  ArgoCDDefaultRedisSentinelPort : Z
}.

(** ** The auto-TLS annotation *)

(** [ensureAutoTLSAnnotation]. [routeAPI] is the result of
    [IsRouteAPIAvailable()]. The service is mutated through its pointer in
    Go; here the mutated service is returned next to the boolean. *)
Definition ensureAutoTLSAnnotation (routeAPI : bool) (svc : Service)
    (secretName : string) (enabled : bool) : bool * Service :=
  let '(autoTLSAnnotationName, autoTLSAnnotationValue, svc) :=
    if routeAPI then
      (ServiceBetaOpenshiftKeyCertSecret, secretName,
       match Annotations (svcMeta svc) with
       | None => svcSetAnnotations svc (Some ∅)
       | Some _ => svc
       end)
    else ("", "", svc) in
  if negb (String.eqb autoTLSAnnotationName "") then
    let val := svcAnnotations svc !! autoTLSAnnotationName in
    if enabled then
      if match val with
         | None => true
         | Some v => negb (String.eqb v secretName)
         end
      then
        (true, svcSetAnnotations svc
                 (Some (<[autoTLSAnnotationName := autoTLSAnnotationValue]> (svcAnnotations svc))))
      else (false, svc)
    else
      if bool_decide (is_Some val) then
        (true, svcSetAnnotations svc
                 (Some (delete autoTLSAnnotationName (svcAnnotations svc))))
      else (false, svc)
  else (false, svc).

(** ** The cluster store and the client *)

Inductive Kind :=
| KNamespace
| KService
| KConfigMap
| KDeployment
| KRole
| KRoleBinding
| KServiceAccount
| KClusterRoleBinding.

#[global] Instance Kind_eq_dec : EqDecision Kind.
Proof. solve_decision. Defined.

#[global] Instance Kind_countable : Countable Kind.
Proof.
  refine (inj_countable'
    (λ k, match k with
          | KNamespace => 0 | KService => 1 | KConfigMap => 2
          | KDeployment => 3 | KRole => 4 | KRoleBinding => 5
          | KServiceAccount => 6 | KClusterRoleBinding => 7
          end%nat)
    (λ n, match n with
          | 0 => KNamespace | 1 => KService | 2 => KConfigMap
          | 3 => KDeployment | 4 => KRole | 5 => KRoleBinding
          | 6 => KServiceAccount | _ => KClusterRoleBinding
          end%nat) _).
  by intros [].
Defined.

(** An object is addressed by kind, namespace and name ([client.ObjectKey]
    together with the Go type of the object passed to the client). *)
Abbreviation ObjectKey := (Kind * string * string)%type.

Inductive Payload :=
| ServicePayload (spec : ServiceSpec)
| ConfigMapPayload (data : gmap string string)
| NoPayload.

(** A stored object ([client.Object]): metadata and the kind's own fields. *)
Record Object := {
  objMeta : ObjectMeta;
  objPayload : Payload
}.

Definition ofService (svc : Service) : Object :=
  {| objMeta := svcMeta svc; objPayload := ServicePayload (svcSpec svc) |}.

Definition toService (o : Object) : Service :=
  {| svcMeta := objMeta o;
     svcSpec := match objPayload o with
                | ServicePayload spec => spec
                | _ => emptyServiceSpec
                end |}.

Definition ofConfigMap (cm : ConfigMap) : Object :=
  {| objMeta := cmMeta cm; objPayload := ConfigMapPayload (cmData cm) |}.

Definition serviceKey (svc : Service) : ObjectKey :=
  (KService, Namespace (svcMeta svc), Name (svcMeta svc)).

Definition configMapKey (cm : ConfigMap) : ObjectKey :=
  (KConfigMap, Namespace (cmMeta cm), Name (cmMeta cm)).

Inductive Verb := Get | Create | Update | Delete.

#[global] Instance Verb_eq_dec : EqDecision Verb.
Proof. solve_decision. Defined.

Abbreviation Call := (Verb * ObjectKey)%type.

Inductive LogEntry :=
| LogInfo (msg : string)
| LogError (err : error) (msg : string).

Record World := {
  objects : gmap ObjectKey Object;
  calls : list Call;
  logs : list LogEntry
}.

(** What a reconciler is given and does not change: the behaviour of the
    API server beyond the contents of the store ([fault] makes a call fail
    with the given error), the kinds registered in the [runtime.Scheme],
    whether the Route API was found, and the imported declarations. *)
Record Env := {
  fault : Verb -> ObjectKey -> option error;
  Scheme : list string;
  routeAPIFound : bool;
  common : Common
}.

(** *** State passing *)

Definition M (A : Type) : Type := World -> A * World.

Definition ret {A} (a : A) : M A := fun w => (a, w).

Definition bind {A B} (m : M A) (k : A -> M B) : M B :=
  fun w => let '(a, w') := m w in k a w'.

Notation "x <- m ;; k" := (bind m (fun x => k))
  (at level 100, m at next level, right associativity).
Notation "m ;;; k" := (bind m (fun _ => k))
  (at level 100, right associativity).

Definition recordCall (v : Verb) (k : ObjectKey) : M unit :=
  fun w => (tt, {| objects := objects w; calls := calls w ++ [(v, k)]; logs := logs w |}).

Definition logEntry (e : LogEntry) : M unit :=
  fun w => (tt, {| objects := objects w; calls := calls w; logs := logs w ++ [e] |}).

Definition setObjects (f : gmap ObjectKey Object -> gmap ObjectKey Object) : M unit :=
  fun w => (tt, {| objects := f (objects w); calls := calls w; logs := logs w |}).

Definition getObjects : M (gmap ObjectKey Object) :=
  fun w => (objects w, w).

(** *** The store's operations

    The client of controller-runtime is an external collaborator of the
    operator. Every call is recorded in [calls]; [fault] lets the API server
    fail a call with an error of its choice, and a call that is not failed
    is answered from [objects]. *)

(** Modelled from the spec: the store's
    [get(name, namespace) -> (object, NotFoundError|other)] of §6. *)
Definition ClientGet (env : Env) (k : ObjectKey) : M (Object + error) :=
  recordCall Get k ;;;
  match fault env Get k with
  | Some err => ret (inr err)
  | None =>
      objs <- getObjects ;;
      match objs !! k with
      | Some o => ret (inl o)
      | None => ret (inr (StatusError StatusReasonNotFound))
      end
  end.

(** Modelled from the spec: the store's [create(object) -> error] of §6; an
    object that is already there is reported as AlreadyExists. *)
Definition ClientCreate (env : Env) (k : ObjectKey) (o : Object) : M (option error) :=
  recordCall Create k ;;;
  match fault env Create k with
  | Some err => ret (Some err)
  | None =>
      objs <- getObjects ;;
      match objs !! k with
      | Some _ => ret (Some (StatusError StatusReasonAlreadyExists))
      | None => setObjects (insert k o) ;;; ret None
      end
  end.

(** Modelled from the spec: the store's [update(object) -> error] of §6; a
    missing object is reported as NotFound. *)
Definition ClientUpdate (env : Env) (k : ObjectKey) (o : Object) : M (option error) :=
  recordCall Update k ;;;
  match fault env Update k with
  | Some err => ret (Some err)
  | None =>
      objs <- getObjects ;;
      match objs !! k with
      | Some _ => setObjects (insert k o) ;;; ret None
      | None => ret (Some (StatusError StatusReasonNotFound))
      end
  end.

(** Modelled from the spec: the store's [delete(name, namespace)] of §6. The
    call itself reports a missing object as NotFound; treating that as
    success is left to the callers, which test [IsNotFound]. *)
Definition ClientDelete (env : Env) (k : ObjectKey) : M (option error) :=
  recordCall Delete k ;;;
  match fault env Delete k with
  | Some err => ret (Some err)
  | None =>
      objs <- getObjects ;;
      match objs !! k with
      | Some _ => setObjects (delete k) ;;; ret None
      | None => ret (Some (StatusError StatusReasonNotFound))
      end
  end.

(** Modelled from the spec: [util.IsObjectFound], the lookup of step 2 of
    §4.2 ("lookup the live object by deterministic name/namespace"), which
    package [util] defines. A present object is read into the caller's
    variable, an absent one leaves it alone. *)
Definition IsObjectFound (k : ObjectKey) : M (option Object) :=
  recordCall Get k ;;;
  objs <- getObjects ;;
  ret (objs !! k).

(** Modelled from the spec: [controllerutil.SetControllerReference], the
    [setOwnerReference(owner, child) -> error] of §6, which fails if owner
    and child are cross-namespace or on a serialization error (the owner's
    kind is not registered in the scheme). *)
Definition SetControllerReference (cr : ArgoCD) (m : ObjectMeta) (scheme : list string)
    : option error * ObjectMeta :=
  if negb (bool_decide ("ArgoCD" ∈ scheme)) then
    (Some (ErrorString "no kind is registered for the type ArgoCD"), m)
  else if negb (String.eqb (Namespace (crMeta cr)) "")
          && negb (String.eqb (Namespace (crMeta cr)) (Namespace m)) then
    (Some (ErrorString "cross-namespace owner references are disallowed"), m)
  else
    (None, withOwnerReferences m
             ({| OwnerKind := "ArgoCD"; OwnerName := Name (crMeta cr); Controller := true |}
              :: OwnerReferences m)).

(** Every object of the store sits under its own namespace and name. *)
Definition wellKeyed (objs : gmap ObjectKey Object) : Prop :=
  map_Forall (λ (k : ObjectKey) o,
                k.1.2 = Namespace (objMeta o) ∧ k.2 = Name (objMeta o)) objs.

(** The writes among the calls: everything but the lookups. *)
Definition isWrite (c : Call) : bool :=
  match c.1 with
  | Get => false
  | _ => true
  end.

Definition writes (cs : list Call) : list Call := filter (λ c, isWrite c = true) cs.

(** ** Services (controllers/argocd/service.go) *)

Section Services.

Variable env : Env.

Let c : Common := common env.

(** [newService] *)
Definition newService (cr : ArgoCD) : Service :=
  {| svcMeta := {| Name := Name (crMeta cr);
                   Namespace := Namespace (crMeta cr);
                   Labels := DefaultLabels c (Name (crMeta cr)) (Name (crMeta cr)) "";
                   Annotations := None;
                   OwnerReferences := [];
                   DeletionTimestamp := None |};
     svcSpec := emptyServiceSpec |}.

(** [newServiceWithName] *)
Definition newServiceWithName (name component : string) (cr : ArgoCD) : Service :=
  let svc := newService cr in
  let lbls := Labels (svcMeta svc) in
  let lbls := <[AppK8sKeyName c := name]> lbls in
  let lbls := <[AppK8sKeyComponent c := component]> lbls in
  svcWithMeta svc
    {| Name := name;
       Namespace := Namespace (svcMeta svc);
       Labels := lbls;
       Annotations := Annotations (svcMeta svc);
       OwnerReferences := OwnerReferences (svcMeta svc);
       DeletionTimestamp := DeletionTimestamp (svcMeta svc) |}.

(** [newServiceWithSuffix]: the name is [fmt.Sprintf("%s-%s", cr.Name, suffix)]. *)
Definition newServiceWithSuffix (suffix component : string) (cr : ArgoCD) : Service :=
  newServiceWithName (Name (crMeta cr) +:+ "-" +:+ suffix) component cr.

Definition svcWithSelector (svc : Service) (sel : gmap string string) : Service :=
  svcWithSpec svc
    {| Selector := sel; Ports := Ports (svcSpec svc);
       PublishNotReadyAddresses := PublishNotReadyAddresses (svcSpec svc);
       ServiceType := ServiceType (svcSpec svc) |}.

Definition svcWithPorts (svc : Service) (ports : list ServicePort) : Service :=
  svcWithSpec svc
    {| Selector := Selector (svcSpec svc); Ports := ports;
       PublishNotReadyAddresses := PublishNotReadyAddresses (svcSpec svc);
       ServiceType := ServiceType (svcSpec svc) |}.

Definition svcWithPublishNotReadyAddresses (svc : Service) (b : bool) : Service :=
  svcWithSpec svc
    {| Selector := Selector (svcSpec svc); Ports := Ports (svcSpec svc);
       PublishNotReadyAddresses := b;
       ServiceType := ServiceType (svcSpec svc) |}.

(** [reconcileGrafanaService] *)
Definition reconcileGrafanaService (cr : ArgoCD) : M (option error) :=
  let svc := newServiceWithSuffix "grafana" "grafana" cr in
  found <- IsObjectFound (KService, Namespace (crMeta cr), Name (svcMeta svc)) ;;
  match found with
  | Some live =>
      let svc := toService live in
      if negb (GrafanaEnabled (crSpec cr)) then
        ClientDelete env (serviceKey svc)
      else ret None
  | None =>
      if negb (GrafanaEnabled (crSpec cr)) then ret None
      else
        let svc := svcWithSelector svc
                     {[ AppK8sKeyName c := NameWithSuffix c (Name (crMeta cr)) "grafana" ]} in
        let svc := svcWithPorts svc
                     [ {| PortName := "http"; Port := 80; Protocol := "TCP";
                          TargetPort := FromInt 3000 |} ] in
        match SetControllerReference cr (svcMeta svc) (Scheme env) with
        | (Some err, _) => ret (Some err)
        | (None, m) =>
            let svc := svcWithMeta svc m in
            logEntry (LogInfo ("creating service " +:+ Name (svcMeta svc)
                               +:+ " for Argo CD instance " +:+ Name (crMeta cr)
                               +:+ " in namespace " +:+ Namespace (crMeta cr))) ;;;
            ClientCreate env (serviceKey svc) (ofService svc)
        end
  end.

(** The body of the loop of [reconcileRedisHAAnnounceServices] at index [i].
    [inl r] stands for [return r] out of the function, [inr tt] for reaching
    the end of the body. *)
Definition announceServiceStep (cr : ArgoCD) (i : Z) : M (option error + unit) :=
  let svc := newServiceWithSuffix ("redis-ha-announce-" +:+ pretty i) "redis" cr in
  found <- IsObjectFound (KService, Namespace (crMeta cr), Name (svcMeta svc)) ;;
  match found with
  | Some live =>
      let svc := toService live in
      if negb (HAEnabled (crSpec cr)) then
        r <- ClientDelete env (serviceKey svc) ;; ret (inl r)
      else ret (inl None)
  | None =>
      if negb (HAEnabled (crSpec cr)) then ret (inl None)
      else
        let svc := svcSetAnnotations svc
                     (Some {[ ServiceAlphaK8sKeyTolerateUnreadyEndpoints c := "true" ]}) in
        let svc := svcWithPublishNotReadyAddresses svc true in
        let svc := svcWithSelector svc
                     {[ AppK8sKeyName c := NameWithSuffix c (Name (crMeta cr)) "redis-ha";
                        StatefulSetK8sKeyPodName c :=
                          NameWithSuffix c (Name (crMeta cr)) ("redis-ha-server-" +:+ pretty i) ]} in
        let svc := svcWithPorts svc
                     [ {| PortName := "server"; Port := ArgoCDDefaultRedisPort c;
                          Protocol := "TCP"; TargetPort := FromString "redis" |};
                       {| PortName := "sentinel"; Port := ArgoCDDefaultRedisSentinelPort c;
                          Protocol := "TCP"; TargetPort := FromString "sentinel" |} ] in
        match SetControllerReference cr (svcMeta svc) (Scheme env) with
        | (Some err, _) => ret (inl (Some err))
        | (None, m) =>
            let svc := svcWithMeta svc m in
            r <- ClientCreate env (serviceKey svc) (ofService svc) ;;
            match r with
            | Some err => ret (inl (Some err))
            | None => ret (inr tt)
            end
        end
  end.

(** The loop [for i := int32(0); i < ArgoCDDefaultRedisHAReplicas; i++] over
    the indices still to visit. *)
Fixpoint announceServicesLoop (cr : ArgoCD) (indices : list Z) : M (option error) :=
  match indices with
  | [] => ret None
  | i :: rest =>
      r <- announceServiceStep cr i ;;
      match r with
      | inl res => ret res
      | inr _ => announceServicesLoop cr rest
      end
  end.

(** [reconcileRedisHAAnnounceServices] *)
Definition reconcileRedisHAAnnounceServices (cr : ArgoCD) : M (option error) :=
  announceServicesLoop cr (seqZ 0 (ArgoCDDefaultRedisHAReplicas c)).

(** [reconcileRedisHAProxyService] *)
Definition reconcileRedisHAProxyService (cr : ArgoCD) : M (option error) :=
  let svc := newServiceWithSuffix "redis-ha-haproxy" "redis" cr in
  found <- IsObjectFound (KService, Namespace (crMeta cr), Name (svcMeta svc)) ;;
  match found with
  | Some live =>
      let svc := toService live in
      if negb (HAEnabled (crSpec cr)) then
        ClientDelete env (serviceKey svc)
      else
        let '(changed, svc) :=
          ensureAutoTLSAnnotation (routeAPIFound env) svc
            (ArgoCDRedisServerTLSSecretName c) (RedisWantsAutoTLS cr) in
        if changed then ClientUpdate env (serviceKey svc) (ofService svc)
        else ret None
  | None =>
      if negb (HAEnabled (crSpec cr)) then ret None
      else
        let '(_, svc) :=
          ensureAutoTLSAnnotation (routeAPIFound env) svc
            (ArgoCDRedisServerTLSSecretName c) (RedisWantsAutoTLS cr) in
        let svc := svcWithSelector svc
                     {[ AppK8sKeyName c := NameWithSuffix c (Name (crMeta cr)) "redis-ha-haproxy" ]} in
        let svc := svcWithPorts svc
                     [ {| PortName := "haproxy"; Port := ArgoCDDefaultRedisPort c;
                          Protocol := "TCP"; TargetPort := FromString "redis" |} ] in
        match SetControllerReference cr (svcMeta svc) (Scheme env) with
        | (Some err, _) => ret (Some err)
        | (None, m) =>
            let svc := svcWithMeta svc m in
            ClientCreate env (serviceKey svc) (ofService svc)
        end
  end.

(** [reconcileRedisService] *)
Definition reconcileRedisService (cr : ArgoCD) : M (option error) :=
  let svc := newServiceWithSuffix "redis" "redis" cr in
  found <- IsObjectFound (KService, Namespace (crMeta cr), Name (svcMeta svc)) ;;
  match found with
  | Some live =>
      let svc := toService live in
      let '(changed, svc) :=
        ensureAutoTLSAnnotation (routeAPIFound env) svc
          (ArgoCDRedisServerTLSSecretName c) (RedisWantsAutoTLS cr) in
      if changed then ClientUpdate env (serviceKey svc) (ofService svc)
      else if HAEnabled (crSpec cr) then ClientDelete env (serviceKey svc)
      else ret None
  | None =>
      if HAEnabled (crSpec cr) then ret None
      else
        let '(_, svc) :=
          ensureAutoTLSAnnotation (routeAPIFound env) svc
            (ArgoCDRedisServerTLSSecretName c) (RedisWantsAutoTLS cr) in
        let svc := svcWithSelector svc
                     {[ AppK8sKeyName c := NameWithSuffix c (Name (crMeta cr)) "redis" ]} in
        let svc := svcWithPorts svc
                     [ {| PortName := "tcp-redis"; Port := ArgoCDDefaultRedisPort c;
                          Protocol := "TCP";
                          TargetPort := FromInt (ArgoCDDefaultRedisPort c) |} ] in
        match SetControllerReference cr (svcMeta svc) (Scheme env) with
        | (Some err, _) => ret (Some err)
        | (None, m) =>
            let svc := svcWithMeta svc m in
            ClientCreate env (serviceKey svc) (ofService svc)
        end
  end.

End Services.

(** ** The Redis HA config map (controllers/argocd/redis/configmap.go) *)

Definition haproxyCfgKey : string := "haproxy.cfg".
Definition haproxyScriptKey : string := "haproxy_init.sh".
Definition initScriptKey : string := "init.sh".
Definition redisConfKey : string := "redis.conf".
Definition sentinelConfKey : string := "sentinel.Conf".

(** [RedisReconciler]. The client and the scheme are in [Env]; the strings
    are what [rr.GetHAProxyConfig()] and its siblings return,
    [resourceLabels] is the package variable of that name, and
    [requestError] is the error that [workloads.RequestConfigMap] reports
    for the request, if any. *)
Record RedisReconciler := {
  Instance : ArgoCD;
  resourceLabels : gmap string string;
  HAProxyConfig : string;
  HAProxyScript : string;
  InitScript : string;
  Conf : string;
  SentinelConf : string;
  requestError : option error
}.

(** [workloads.ConfigMapRequest] *)
Record ConfigMapRequest := {
  reqObjectMeta : ObjectMeta;
  reqData : gmap string string
}.

Section Redis.

Variable env : Env.
Variable rr : RedisReconciler.

(** Modelled from the spec: [workloads.RequestConfigMap], a resource request
    builder of §2: it builds the in-memory desired object from the request
    and can report a builder error (§7 c). *)
Definition RequestConfigMap (request : ConfigMapRequest) : ConfigMap * option error :=
  ({| cmMeta := reqObjectMeta request; cmData := reqData request |}, requestError rr).

(** Modelled from the spec: [cluster.GetNamespace], the store's [get] of §6
    at the kind Namespace. *)
Definition GetNamespace (name : string) : M (Object + error) :=
  ClientGet env (KNamespace, "", name).

(** Modelled from the spec: [workloads.GetConfigMap], the store's [get] of
    §6 at the kind ConfigMap. *)
Definition GetConfigMap (name namespace : string) : M (Object + error) :=
  ClientGet env (KConfigMap, namespace, name).

(** Modelled from the spec: [workloads.CreateConfigMap], the store's
    [create] of §6. *)
Definition CreateConfigMap (cm : ConfigMap) : M (option error) :=
  ClientCreate env (configMapKey cm) (ofConfigMap cm).

(** Modelled from the spec: [workloads.DeleteConfigMap], the store's
    [delete] of §6 at the kind ConfigMap; [deleteConfigMap] tests its error
    for NotFound. *)
Definition DeleteConfigMap (name namespace : string) : M (option error) :=
  ClientDelete env (KConfigMap, namespace, name).

(** [deleteConfigMap] *)
Definition deleteConfigMap (name namespace : string) : M (option error) :=
  r <- DeleteConfigMap name namespace ;;
  match r with
  | Some err =>
      if IsNotFound err then ret None
      else ret (Some (Wrap err ("deleteConfigMap: failed to delete configMap " +:+ name
                                +:+ " in namespace " +:+ namespace)))
  | None =>
      logEntry (LogInfo "DeleteConfigMap: configMap deleted") ;;;
      ret None
  end.

(** [reconcileHAConfigMap] *)
Definition reconcileHAConfigMap : M (option error) :=
  let cmRequest :=
    {| reqObjectMeta :=
         {| Name := ArgoCDRedisHAConfigMapName (common env);
            Namespace := Namespace (crMeta (Instance rr));
            Labels := resourceLabels rr;
            Annotations := Annotations (crMeta (Instance rr));
            OwnerReferences := [];
            DeletionTimestamp := None |};
       reqData :=
         {[ haproxyCfgKey := HAProxyConfig rr;
            haproxyScriptKey := HAProxyScript rr;
            initScriptKey := InitScript rr;
            redisConfKey := Conf rr;
            sentinelConfKey := SentinelConf rr ]} |} in
  let '(desiredCM, err) := RequestConfigMap cmRequest in
  let cmName := Name (cmMeta desiredCM) in
  let cmNamespace := Namespace (cmMeta desiredCM) in
  match err with
  | Some err =>
      logEntry (LogInfo "reconcileHAConfigMap: one or more mutations could not be applied") ;;;
      ret (Some (Wrap err ("reconcileHAConfigMap: failed to request configMap " +:+ cmName
                           +:+ " in namespace " +:+ cmNamespace)))
  | None =>
      ns <- GetNamespace (Namespace (crMeta (Instance rr))) ;;
      match ns with
      | inr err =>
          ret (Some (Wrap err ("reconcileHAConfigMap: failed to retrieve namespace "
                               +:+ Namespace (crMeta (Instance rr)))))
      | inl namespace =>
          del <- (if bool_decide (is_Some (DeletionTimestamp (objMeta namespace)))
                  then deleteConfigMap cmName cmNamespace
                  else ret None) ;;
          match del with
          | Some err =>
              ret (Some (Wrap err ("reconcileHAConfigMap: failed to delete configMap " +:+ cmName
                                   +:+ " in namespace " +:+ cmNamespace)))
          | None =>
              existing <- GetConfigMap cmName cmNamespace ;;
              match existing with
              | inr err =>
                  if negb (IsNotFound err) then
                    ret (Some (Wrap err ("reconcileHAConfigMap: failed to retrieve configMap "
                                         +:+ cmName +:+ " in namespace " +:+ cmNamespace)))
                  else
                    let '(oerr, m) :=
                      SetControllerReference (Instance rr) (cmMeta desiredCM) (Scheme env) in
                    (match oerr with
                     | Some err =>
                         logEntry (LogError err
                           "reconcileHAConfigMap: failed to set owner reference for configMap")
                     | None => ret tt
                     end) ;;;
                    let desiredCM := {| cmMeta := m; cmData := cmData desiredCM |} in
                    created <- CreateConfigMap desiredCM ;;
                    match created with
                    | Some err =>
                        ret (Some (Wrap err ("reconcileHAConfigMap: failed to create configMap "
                                             +:+ cmName +:+ " in namespace " +:+ cmNamespace)))
                    | None =>
                        logEntry (LogInfo "reconcileHAConfigMap: configMap created") ;;;
                        ret None
                    end
              | inl _ => ret None
              end
          end
      end
  end.

End Redis.

(** ** Cluster role bindings (pkg/permissions/clusterrolebinding.go) *)

Section Permissions.

Variable env : Env.

(** [GetClusterRoleBinding] *)
Definition GetClusterRoleBinding (name : string) : M (Object + error) :=
  ClientGet env (KClusterRoleBinding, "", name).

(** [DeleteClusterRoleBinding] *)
Definition DeleteClusterRoleBinding (name : string) : M (option error) :=
  r <- GetClusterRoleBinding name ;;
  match r with
  | inr err =>
      if negb (IsNotFound err) then ret (Some err)
      else ret None
  | inl existingCRB =>
      d <- ClientDelete env (KClusterRoleBinding, Namespace (objMeta existingCRB),
                             Name (objMeta existingCRB)) ;;
      match d with
      | Some err => ret (Some err)
      | None => ret None
      end
  end.

End Permissions.

(** ** Teardown of the ApplicationSet component
    (controllers/argocd/applicationset/applicationset.go) *)

Section ApplicationSet.

Variable env : Env.

(** Modelled from the spec: the per-kind delete methods of the component
    ([asr.DeleteService], [asr.DeleteDeployment], [asr.DeleteRoleBinding],
    [asr.DeleteRole], [asr.DeleteServiceAccount]), defined in the files of
    the respective kinds. Each is the store's [delete(name, namespace)] of
    §6 at its kind, "tolerating not found" (§4.5); any other error is
    returned. *)
Definition deleteKind (k : Kind) (name namespace : string) : M (option error) :=
  r <- ClientDelete env (k, namespace, name) ;;
  match r with
  | Some err => if IsNotFound err then ret None else ret (Some err)
  | None => ret None
  end.

Definition DeleteService := deleteKind KService.
Definition DeleteDeployment := deleteKind KDeployment.
Definition DeleteRoleBinding := deleteKind KRoleBinding.
Definition DeleteRole := deleteKind KRole.
Definition DeleteServiceAccount := deleteKind KServiceAccount.

(** [DeleteResources]. [resourceName] is the package variable that
    [Reconcile] sets; [instanceNamespace] is [asr.Instance.Namespace]. The
    state threaded through the steps carries [deletionError]. *)
Definition DeleteResources (resourceName instanceNamespace : string) : M (option error) :=
  let deletionError : option error := None in
  r <- DeleteService resourceName instanceNamespace ;;
  deletionError <-
    match r with
    | Some err =>
        logEntry (LogError err "DeleteResources: failed to delete service") ;;;
        ret (Some err)
    | None => ret deletionError
    end ;;
  r <- DeleteDeployment resourceName instanceNamespace ;;
  deletionError <-
    match r with
    | Some err =>
        logEntry (LogError err "DeleteResources: failed to delete deployment") ;;;
        ret (Some err)
    | None => ret deletionError
    end ;;
  r <- DeleteRoleBinding resourceName instanceNamespace ;;
  deletionError <-
    match r with
    | Some err =>
        logEntry (LogError err "DeleteResources: failed to delete roleBinding") ;;;
        ret (Some err)
    | None => ret deletionError
    end ;;
  r <- DeleteRole resourceName instanceNamespace ;;
  deletionError <-
    match r with
    | Some err =>
        logEntry (LogError err "DeleteResources: failed to delete role") ;;;
        ret (Some err)
    | None => ret deletionError
    end ;;
  r <- DeleteServiceAccount resourceName instanceNamespace ;;
  deletionError <-
    match r with
    | Some err =>
        logEntry (LogError err "DeleteResources: failed to delete serviceaccount") ;;;
        ret (Some err)
    | None => ret deletionError
    end ;;
  ret deletionError.

End ApplicationSet.

(** The key of the announce service of index [i]: the name is
    [fmt.Sprintf("%s-%s", cr.Name, fmt.Sprintf("redis-ha-announce-%d", i))]. *)
Definition announceKey (cr : ArgoCD) (i : Z) : ObjectKey :=
  (KService, Namespace (crMeta cr),
   Name (crMeta cr) +:+ "-redis-ha-announce-" +:+ pretty i).

(** The key of the service that [newServiceWithSuffix] names with [suffix]. *)
Definition suffixKey (cr : ArgoCD) (suffix : string) : ObjectKey :=
  (KService, Namespace (crMeta cr), Name (crMeta cr) +:+ "-" +:+ suffix).

(** The key of the config map that [reconcileHAConfigMap] manages, and of
    the namespace it looks up. *)
Definition haConfigMapKey (env : Env) (rr : RedisReconciler) : ObjectKey :=
  (KConfigMap, Namespace (crMeta (Instance rr)), ArgoCDRedisHAConfigMapName (common env)).

Definition namespaceKey (rr : RedisReconciler) : ObjectKey :=
  (KNamespace, "", Namespace (crMeta (Instance rr))).

(** The kinds that [DeleteResources] tears down, in the order of its steps. *)
Definition teardownKinds : list Kind :=
  [KService; KDeployment; KRoleBinding; KRole; KServiceAccount].

(** The store tolerates the delete of [k]: the call succeeds or reports
    NotFound. *)
Definition deleteTolerated (env : Env) (k : ObjectKey) : Prop :=
  match fault env Delete k with
  | Some err => IsNotFound err = true
  | None => True
  end.

(** ** Concrete instances for the examples *)

(** A choice of the imported declarations. The replica count is the one of
    the scenario of §8 (three indexed peer services). *)
Definition demoCommon : Common :=
  {| DefaultLabels := λ name instance component,
       {[ "app.kubernetes.io/name" := name;
          "app.kubernetes.io/part-of" := "argocd";
          "app.kubernetes.io/instance" := instance;
          "app.kubernetes.io/managed-by" := "argocd-operator";
          "app.kubernetes.io/component" := component ]};
     NameWithSuffix := λ name suffix, name +:+ "-" +:+ suffix;
     AppK8sKeyName := "app.kubernetes.io/name";
     AppK8sKeyComponent := "app.kubernetes.io/component";
     StatefulSetK8sKeyPodName := "statefulset.kubernetes.io/pod-name";
     ServiceAlphaK8sKeyTolerateUnreadyEndpoints :=
       "service.alpha.kubernetes.io/tolerate-unready-endpoints";
     ArgoCDRedisServerTLSSecretName := "argocd-operator-redis-tls";
     ArgoCDRedisHAConfigMapName := "argocd-redis-ha-configmap";
     ArgoCDDefaultRedisHAReplicas := 3;
     ArgoCDDefaultRedisPort := 6379;
     ArgoCDDefaultRedisSentinelPort := 26379 |}.

Definition noFault : Verb -> ObjectKey -> option error := λ _ _, None.

(** The API server answers every call from the store, the scheme knows the
    ArgoCD kind. *)
Definition demoEnv (routeAPI : bool) : Env :=
  {| fault := noFault; Scheme := ["ArgoCD"]; routeAPIFound := routeAPI;
     common := demoCommon |}.

(** The same, but with a scheme in which the ArgoCD kind is not registered,
    so that [SetControllerReference] fails. *)
Definition schemelessEnv : Env :=
  {| fault := noFault; Scheme := []; routeAPIFound := false; common := demoCommon |}.

Definition metaOf (name namespace : string) : ObjectMeta :=
  {| Name := name; Namespace := namespace; Labels := ∅; Annotations := None;
     OwnerReferences := []; DeletionTimestamp := None |}.

(** Instance [demo] in namespace [ns1], as in §8. *)
Definition demo (grafana ha : bool) (redisAutoTLS : string) : ArgoCD :=
  {| crMeta := metaOf "demo" "ns1";
     crSpec := {| GrafanaEnabled := grafana; HAEnabled := ha;
                  RedisAutoTLS := redisAutoTLS |} |}.

Definition worldOf (objs : list (ObjectKey * Object)) : World :=
  {| objects := list_to_map objs; calls := []; logs := [] |}.

(** A live service of the given name in [ns1] without annotations. *)
Definition liveService (name : string) : ObjectKey * Object :=
  ((KService, "ns1", name),
   {| objMeta := metaOf name "ns1"; objPayload := ServicePayload emptyServiceSpec |}).

Definition bareService : Service :=
  {| svcMeta := metaOf "demo-redis" "ns1"; svcSpec := emptyServiceSpec |}.


(** An API server that fails every delete of an object of kind [k] with
    [err], and answers every other call from the store. *)
Definition failingDeleteEnv (k : Kind) (err : error) : Env :=
  {| fault := λ v key,
       match v with
       | Delete => if decide (key.1.1 = k) then Some err else None
       | _ => None
       end;
     Scheme := ["ArgoCD"]; routeAPIFound := false; common := demoCommon |}.

(** The Redis reconciler of instance [demo]. *)
Definition demoRedis : RedisReconciler :=
  {| Instance := demo false true "";
     resourceLabels := {[ "app.kubernetes.io/component" := "redis" ]};
     HAProxyConfig := "haproxy"; HAProxyScript := "haproxy-init";
     InitScript := "init"; Conf := "conf"; SentinelConf := "sentinel";
     requestError := None |}.

(** Namespace [ns1], live or marked for deletion at time [t]. *)
Definition namespaceObject (deletion : option Z) : ObjectKey * Object :=
  ((KNamespace, "", "ns1"),
   {| objMeta := {| Name := "ns1"; Namespace := ""; Labels := ∅; Annotations := None;
                    OwnerReferences := []; DeletionTimestamp := deletion |};
      objPayload := NoPayload |}).

(** The Redis HA config map of [demo], as found in the store. *)
Definition liveConfigMap : ObjectKey * Object :=
  ((KConfigMap, "ns1", "argocd-redis-ha-configmap"),
   {| objMeta := metaOf "argocd-redis-ha-configmap" "ns1";
      objPayload := ConfigMapPayload ∅ |}).

(** An object of kind [k] named [demo-applicationset] in [ns1]. *)
Definition liveObject (k : Kind) : ObjectKey * Object :=
  ((k, "ns1", "demo-applicationset"),
   {| objMeta := metaOf "demo-applicationset" "ns1"; objPayload := NoPayload |}).

(** A cluster role binding of [demo], as found in the store. *)
Definition liveBinding : ObjectKey * Object :=
  ((KClusterRoleBinding, "", "demo-argocd-server"),
   {| objMeta := metaOf "demo-argocd-server" ""; objPayload := NoPayload |}).

(** * The rest of the sources *)

(** ** The remaining service reconcilers (controllers/argocd/service.go) *)

(** The parts of [cr.Spec] that the repo and server reconcilers read, next
    to the instance itself. [ServerRouteTLS] is [cr.Spec.Server.Route.TLS]:
    [None] for a nil pointer, else the [Termination] of the TLS
    configuration. *)
Record ArgoCDServices := {
  instance :> ArgoCD;
  RepoAutoTLS : string;           (* cr.Spec.Repo.AutoTLS *)
  ServerRouteTLS : option string; (* cr.Spec.Server.Route.TLS *)
  ServerServiceType : string      (* cr.Spec.Server.Service.Type *)
}.

(** [routev1.TLSTerminationReencrypt] of the OpenShift route API. *)
Definition TLSTerminationReencrypt : string := "reencrypt".

(** [corev1.ServiceTypeClusterIP] *)
Definition ServiceTypeClusterIP : string := "ClusterIP".

(** [WantsAutoTLS] of [ArgoCDServerSpec] *)
Definition ServerWantsAutoTLS (cr : ArgoCDServices) : bool :=
  match ServerRouteTLS cr with
  | Some termination => String.eqb termination TLSTerminationReencrypt
  | None => false
  end.

(** [WantsAutoTLS] of [ArgoCDRepoSpec] *)
Definition RepoWantsAutoTLS (cr : ArgoCDServices) : bool :=
  String.eqb (RepoAutoTLS cr) "openshift".

(** The declarations of package [common] that the repo and server
    reconcilers use, next to those of [Common]. *)
Record ServiceImports := {
  ArgoCDRepoServerTLSSecretName : string;
  ArgoCDServerTLSSecretName : string;
  ArgoCDDefaultRepoServerPort : Z;
  ArgoCDDefaultRepoMetricsPort : Z
}.

Definition svcWithType (svc : Service) (t : string) : Service :=
  svcWithSpec svc
    {| Selector := Selector (svcSpec svc); Ports := Ports (svcSpec svc);
       PublishNotReadyAddresses := PublishNotReadyAddresses (svcSpec svc);
       ServiceType := t |}.

(** [getArgoServerServiceType] *)
Definition getArgoServerServiceType (cr : ArgoCDServices) : string :=
  if Z.ltb 0 (Z.of_nat (String.length (ServerServiceType cr))) then ServerServiceType cr
  else ServiceTypeClusterIP.

Section MoreServices.

Variable env : Env.
Variable imports : ServiceImports.

(** [reconcileDexService] is defined with the Dex component; here it is any
    reconciler. *)
Variable reconcileDexService : ArgoCD -> M (option error).

Let c : Common := common env.

(** [reconcileMetricsService] *)
Definition reconcileMetricsService (cr : ArgoCD) : M (option error) :=
  let svc := newServiceWithSuffix env "metrics" "metrics" cr in
  found <- IsObjectFound (KService, Namespace (crMeta cr), Name (svcMeta svc)) ;;
  match found with
  | Some _ => ret None
  | None =>
      let svc := svcWithSelector svc
                   {[ AppK8sKeyName c :=
                        NameWithSuffix c (Name (crMeta cr)) "application-controller" ]} in
      let svc := svcWithPorts svc
                   [ {| PortName := "metrics"; Port := 8082; Protocol := "TCP";
                        TargetPort := FromInt 8082 |} ] in
      match SetControllerReference cr (svcMeta svc) (Scheme env) with
      | (Some err, _) => ret (Some err)
      | (None, m) =>
          let svc := svcWithMeta svc m in
          ClientCreate env (serviceKey svc) (ofService svc)
      end
  end.

(** [reconcileRedisHAMasterService] *)
Definition reconcileRedisHAMasterService (cr : ArgoCD) : M (option error) :=
  let svc := newServiceWithSuffix env "redis-ha" "redis" cr in
  found <- IsObjectFound (KService, Namespace (crMeta cr), Name (svcMeta svc)) ;;
  match found with
  | Some live =>
      let svc := toService live in
      if negb (HAEnabled (crSpec cr)) then
        ClientDelete env (serviceKey svc)
      else ret None
  | None =>
      if negb (HAEnabled (crSpec cr)) then ret None
      else
        let svc := svcWithSelector svc
                     {[ AppK8sKeyName c := NameWithSuffix c (Name (crMeta cr)) "redis-ha" ]} in
        let svc := svcWithPorts svc
                     [ {| PortName := "server"; Port := ArgoCDDefaultRedisPort c;
                          Protocol := "TCP"; TargetPort := FromString "redis" |};
                       {| PortName := "sentinel"; Port := ArgoCDDefaultRedisSentinelPort c;
                          Protocol := "TCP"; TargetPort := FromString "sentinel" |} ] in
        match SetControllerReference cr (svcMeta svc) (Scheme env) with
        | (Some err, _) => ret (Some err)
        | (None, m) =>
            let svc := svcWithMeta svc m in
            ClientCreate env (serviceKey svc) (ofService svc)
        end
  end.

(** [reconcileRedisHAServices] *)
Definition reconcileRedisHAServices (cr : ArgoCD) : M (option error) :=
  r <- reconcileRedisHAAnnounceServices env cr ;;
  match r with
  | Some err => ret (Some err)
  | None =>
      r <- reconcileRedisHAMasterService cr ;;
      match r with
      | Some err => ret (Some err)
      | None =>
          r <- reconcileRedisHAProxyService env cr ;;
          match r with
          | Some err => ret (Some err)
          | None => ret None
          end
      end
  end.

(** [reconcileRepoService] *)
Definition reconcileRepoService (cr : ArgoCDServices) : M (option error) :=
  let svc := newServiceWithSuffix env "repo-server" "repo-server" cr in
  found <- IsObjectFound (KService, Namespace (crMeta cr), Name (svcMeta svc)) ;;
  match found with
  | Some live =>
      let svc := toService live in
      let '(changed, svc) :=
        ensureAutoTLSAnnotation (routeAPIFound env) svc
          (ArgoCDRepoServerTLSSecretName imports) (RepoWantsAutoTLS cr) in
      if changed then ClientUpdate env (serviceKey svc) (ofService svc)
      else ret None
  | None =>
      let '(_, svc) :=
        ensureAutoTLSAnnotation (routeAPIFound env) svc
          (ArgoCDRepoServerTLSSecretName imports) (RepoWantsAutoTLS cr) in
      let svc := svcWithSelector svc
                   {[ AppK8sKeyName c := NameWithSuffix c (Name (crMeta cr)) "repo-server" ]} in
      let svc := svcWithPorts svc
                   [ {| PortName := "server"; Port := ArgoCDDefaultRepoServerPort imports;
                        Protocol := "TCP";
                        TargetPort := FromInt (ArgoCDDefaultRepoServerPort imports) |};
                     {| PortName := "metrics"; Port := ArgoCDDefaultRepoMetricsPort imports;
                        Protocol := "TCP";
                        TargetPort := FromInt (ArgoCDDefaultRepoMetricsPort imports) |} ] in
      match SetControllerReference cr (svcMeta svc) (Scheme env) with
      | (Some err, _) => ret (Some err)
      | (None, m) =>
          let svc := svcWithMeta svc m in
          ClientCreate env (serviceKey svc) (ofService svc)
      end
  end.

(** [reconcileServerMetricsService] *)
Definition reconcileServerMetricsService (cr : ArgoCD) : M (option error) :=
  let svc := newServiceWithSuffix env "server-metrics" "server" cr in
  found <- IsObjectFound (KService, Namespace (crMeta cr), Name (svcMeta svc)) ;;
  match found with
  | Some _ => ret None
  | None =>
      let svc := svcWithSelector svc
                   {[ AppK8sKeyName c := NameWithSuffix c (Name (crMeta cr)) "server" ]} in
      let svc := svcWithPorts svc
                   [ {| PortName := "metrics"; Port := 8083; Protocol := "TCP";
                        TargetPort := FromInt 8083 |} ] in
      match SetControllerReference cr (svcMeta svc) (Scheme env) with
      | (Some err, _) => ret (Some err)
      | (None, m) =>
          let svc := svcWithMeta svc m in
          ClientCreate env (serviceKey svc) (ofService svc)
      end
  end.

(** [reconcileServerService] *)
Definition reconcileServerService (cr : ArgoCDServices) : M (option error) :=
  let svc := newServiceWithSuffix env "server" "server" cr in
  found <- IsObjectFound (KService, Namespace (crMeta cr), Name (svcMeta svc)) ;;
  match found with
  | Some live =>
      let svc := toService live in
      let '(changed, svc) :=
        ensureAutoTLSAnnotation (routeAPIFound env) svc
          (ArgoCDServerTLSSecretName imports) (ServerWantsAutoTLS cr) in
      if changed then ClientUpdate env (serviceKey svc) (ofService svc)
      else ret None
  | None =>
      let '(_, svc) :=
        ensureAutoTLSAnnotation (routeAPIFound env) svc
          (ArgoCDServerTLSSecretName imports) (ServerWantsAutoTLS cr) in
      let svc := svcWithPorts svc
                   [ {| PortName := "http"; Port := 80; Protocol := "TCP";
                        TargetPort := FromInt 8080 |};
                     {| PortName := "https"; Port := 443; Protocol := "TCP";
                        TargetPort := FromInt 8080 |} ] in
      let svc := svcWithSelector svc
                   {[ AppK8sKeyName c := NameWithSuffix c (Name (crMeta cr)) "server" ]} in
      let svc := svcWithType svc (getArgoServerServiceType cr) in
      match SetControllerReference cr (svcMeta svc) (Scheme env) with
      | (Some err, _) => ret (Some err)
      | (None, m) =>
          let svc := svcWithMeta svc m in
          ClientCreate env (serviceKey svc) (ofService svc)
      end
  end.

(** [reconcileServices] *)
Definition reconcileServices (cr : ArgoCDServices) : M (option error) :=
  dex <- reconcileDexService cr ;;
  (match dex with
   | Some err => logEntry (LogError err "error reconciling dex service")
   | None => ret tt
   end) ;;;
  err <- reconcileGrafanaService env cr ;;
  match err with
  | Some err => ret (Some err)
  | None =>
  err <- reconcileMetricsService cr ;;
  match err with
  | Some err => ret (Some err)
  | None =>
  err <- reconcileRedisHAServices cr ;;
  match err with
  | Some err => ret (Some err)
  | None =>
  err <- reconcileRedisService env cr ;;
  match err with
  | Some err => ret (Some err)
  | None =>
  err <- reconcileRepoService cr ;;
  match err with
  | Some err => ret (Some err)
  | None =>
  err <- reconcileServerMetricsService cr ;;
  match err with
  | Some err => ret (Some err)
  | None =>
  err <- reconcileServerService cr ;;
  match err with
  | Some err => ret (Some err)
  | None => ret None
  end end end end end end end.

End MoreServices.

(** ** The Redis HA health config map (controllers/argocd/redis/configmap.go) *)

Definition livenessScriptKey : string := "redis_liveness.sh".
Definition readinessScriptKey : string := "redis_readiness.sh".
Definition sentinelLivenessScriptKey : string := "sentinel_liveness.sh".

(** What [reconcileHAHealthConfigMap] reads beyond [RedisReconciler] and
    [Common]: the name [common.ArgoCDRedisHAHealthConfigMapName] and the
    results of [rr.GetLivenessScript()], [rr.GetReadinessScript()] and
    [rr.GetSentinelLivenessScript()]. *)
Record RedisHealth := {
  ArgoCDRedisHAHealthConfigMapName : string;
  LivenessScript : string;
  ReadinessScript : string;
  SentinelLivenessScript : string
}.

Definition haHealthConfigMapKey (rr : RedisReconciler) (health : RedisHealth) : ObjectKey :=
  (KConfigMap, Namespace (crMeta (Instance rr)), ArgoCDRedisHAHealthConfigMapName health).

Section RedisHealthConfigMap.

Variable env : Env.
Variable rr : RedisReconciler.
Variable health : RedisHealth.

(** [reconcileHAHealthConfigMap] *)
Definition reconcileHAHealthConfigMap : M (option error) :=
  let cmRequest :=
    {| reqObjectMeta :=
         {| Name := ArgoCDRedisHAHealthConfigMapName health;
            Namespace := Namespace (crMeta (Instance rr));
            Labels := resourceLabels rr;
            Annotations := Annotations (crMeta (Instance rr));
            OwnerReferences := [];
            DeletionTimestamp := None |};
       reqData :=
         {[ livenessScriptKey := LivenessScript health;
            readinessScriptKey := ReadinessScript health;
            sentinelLivenessScriptKey := SentinelLivenessScript health ]} |} in
  let '(desiredCM, err) := RequestConfigMap rr cmRequest in
  let cmName := Name (cmMeta desiredCM) in
  let cmNamespace := Namespace (cmMeta desiredCM) in
  match err with
  | Some err =>
      logEntry (LogError err "reconcileHAHealthConfigMap: failed to request configMap") ;;;
      logEntry (LogInfo
        "reconcileHAHealthConfigMap: one or more mutations could not be applied") ;;;
      ret (Some err)
  | None =>
      ns <- GetNamespace env (Namespace (crMeta (Instance rr))) ;;
      match ns with
      | inr err =>
          logEntry (LogError err "reconcileHAHealthConfigMap: failed to retrieve namespace") ;;;
          ret (Some err)
      | inl namespace =>
          del <- (if bool_decide (is_Some (DeletionTimestamp (objMeta namespace)))
                  then deleteConfigMap env cmName cmNamespace
                  else ret None) ;;
          match del with
          | Some err =>
              ret (Some (Wrap err ("reconcileHAHealthConfigMap: failed to delete configMap "
                                   +:+ cmName +:+ " in namespace " +:+ cmNamespace)))
          | None =>
              existing <- GetConfigMap env cmName cmNamespace ;;
              match existing with
              | inr err =>
                  if negb (IsNotFound err) then
                    ret (Some (Wrap err
                                 ("reconcileHAHealthConfigMap: failed to retrieve configMap "
                                  +:+ cmName +:+ " in namespace " +:+ cmNamespace)))
                  else
                    let '(oerr, m) :=
                      SetControllerReference (Instance rr) (cmMeta desiredCM) (Scheme env) in
                    (match oerr with
                     | Some err =>
                         logEntry (LogError err
                           "reconcileHAHealthConfigMap: failed to set owner reference for configMap")
                     | None => ret tt
                     end) ;;;
                    let desiredCM := {| cmMeta := m; cmData := cmData desiredCM |} in
                    created <- CreateConfigMap env desiredCM ;;
                    match created with
                    | Some err =>
                        ret (Some (Wrap err
                                     ("reconcileHAHealthConfigMap: failed to create configMap "
                                      +:+ cmName +:+ " in namespace " +:+ cmNamespace)))
                    | None =>
                        logEntry (LogInfo "reconcileHAHealthConfigMap: configMap created") ;;;
                        ret None
                    end
              | inl _ => ret None
              end
          end
      end
  end.

End RedisHealthConfigMap.

(** ** The other operations on cluster role bindings
    (pkg/permissions/clusterrolebinding.go) *)

Section MorePermissions.

Variable env : Env.

(** The key under which the client addresses the binding [crb]. *)
Definition clusterRoleBindingKey (crb : Object) : ObjectKey :=
  (KClusterRoleBinding, Namespace (objMeta crb), Name (objMeta crb)).

(** [CreateClusterRoleBinding] *)
Definition CreateClusterRoleBinding (crb : Object) : M (option error) :=
  ClientCreate env (clusterRoleBindingKey crb) crb.

(** [UpdateClusterRoleBinding] *)
Definition UpdateClusterRoleBinding (crb : Object) : M (option error) :=
  r <- GetClusterRoleBinding env (Name (objMeta crb)) ;;
  match r with
  | inr err => ret (Some err)
  | inl _ =>
      u <- ClientUpdate env (clusterRoleBindingKey crb) crb ;;
      match u with
      | Some err => ret (Some err)
      | None => ret None
      end
  end.

End MorePermissions.

(** ** The v1alpha1 API (api/v1alpha1/argocd_types.go) *)

(** [IsDeletionFinalizerPresent]: the loop over [argocd.GetFinalizers()].
    [deletionFinalizer] is [common.ArgoCDDeletionFinalizer]. *)
Fixpoint IsDeletionFinalizerPresent (deletionFinalizer : string) (finalizers : list string)
    : bool :=
  match finalizers with
  | [] => false
  | finalizer :: rest =>
      if String.eqb finalizer deletionFinalizer then true
      else IsDeletionFinalizerPresent deletionFinalizer rest
  end.

(** [common.ArgoCDDefaultApplicationInstanceLabelKey] (common/defaults.go) *)
Definition ArgoCDDefaultApplicationInstanceLabelKey : string := "mycompany.com/appname".

(** [ApplicationInstanceLabelKey]; the argument is
    [a.Spec.ApplicationInstanceLabelKey]. *)
Definition ApplicationInstanceLabelKey (custom : string) : string :=
  if negb (String.eqb custom "") then custom
  else ArgoCDDefaultApplicationInstanceLabelKey.

(** [ResourceTrackingMethod] is an [int]. *)
Definition ResourceTrackingMethodInvalid : Z := -1.
Definition ResourceTrackingMethodLabel : Z := 0.
Definition ResourceTrackingMethodAnnotation : Z := 1.
Definition ResourceTrackingMethodAnnotationAndLabel : Z := 2.

Definition stringResourceTrackingMethodLabel : string := "label".
Definition stringResourceTrackingMethodAnnotation : string := "annotation".
Definition stringResourceTrackingMethodAnnotationAndLabel : string := "annotation+label".

(** [String] of [ResourceTrackingMethod] *)
Definition ResourceTrackingMethodString (r : Z) : string :=
  if Z.eqb r ResourceTrackingMethodLabel then stringResourceTrackingMethodLabel
  else if Z.eqb r ResourceTrackingMethodAnnotation then stringResourceTrackingMethodAnnotation
  else if Z.eqb r ResourceTrackingMethodAnnotationAndLabel
       then stringResourceTrackingMethodAnnotationAndLabel
  else stringResourceTrackingMethodLabel.

(** [ParseResourceTrackingMethod] *)
Definition ParseResourceTrackingMethod (name : string) : Z :=
  if String.eqb name stringResourceTrackingMethodLabel || String.eqb name ""
  then ResourceTrackingMethodLabel
  else if String.eqb name stringResourceTrackingMethodAnnotation
  then ResourceTrackingMethodAnnotation
  else if String.eqb name stringResourceTrackingMethodAnnotationAndLabel
  then ResourceTrackingMethodAnnotationAndLabel
  else ResourceTrackingMethodInvalid.

(** ** Services of the v1alpha1 controller (controllers/argocd/service.go) *)

Module V1alpha1.

(** The instance of API version v1alpha1, as far as this file reads it. *)
Record ArgoCD := {
  crMeta : ObjectMeta;
  RepoAutoTLS : string;        (* cr.Spec.Repo.AutoTLS *)
  ServerServiceType : string   (* cr.Spec.Server.Service.Type *)
}.

(** What the file takes from elsewhere: [labelsForCluster] of the
    controller, [common.ArgoCDKeyName], [common.ArgoCDKeyComponent] and
    [common.ArgoCDRepoServerTLSSecretName]. *)
Record Imports := {
  labelsForCluster : ArgoCD -> gmap string string;
  ArgoCDKeyName : string;
  ArgoCDKeyComponent : string;
  ArgoCDRepoServerTLSSecretName : string
}.

Section Services.

Variable imports : Imports.

(** [newService] *)
Definition newService (cr : ArgoCD) : Service :=
  {| svcMeta := {| Name := Name (crMeta cr);
                   Namespace := Namespace (crMeta cr);
                   Labels := labelsForCluster imports cr;
                   Annotations := None;
                   OwnerReferences := [];
                   DeletionTimestamp := None |};
     svcSpec := emptyServiceSpec |}.

(** [newServiceWithName] *)
Definition newServiceWithName (name component : string) (cr : ArgoCD) : Service :=
  let svc := newService cr in
  let lbls := Labels (svcMeta svc) in
  let lbls := <[ArgoCDKeyName imports := name]> lbls in
  let lbls := <[ArgoCDKeyComponent imports := component]> lbls in
  svcWithMeta svc
    {| Name := name;
       Namespace := Namespace (svcMeta svc);
       Labels := lbls;
       Annotations := Annotations (svcMeta svc);
       OwnerReferences := OwnerReferences (svcMeta svc);
       DeletionTimestamp := DeletionTimestamp (svcMeta svc) |}.

(** [NewServiceWithSuffix] *)
Definition NewServiceWithSuffix (suffix component : string) (cr : ArgoCD) : Service :=
  newServiceWithName (Name (crMeta cr) +:+ "-" +:+ suffix) component cr.

(** [EnsureAutoTLSAnnotation] *)
Definition EnsureAutoTLSAnnotation (cr : ArgoCD) (svc : Service) : bool * Service :=
  let autoTLSAnnotationName :=
    if String.eqb (RepoAutoTLS cr) "openshift"
    then "service.beta.openshift.io/serving-cert-secret-name"
    else "" in
  if negb (String.eqb autoTLSAnnotationName "") then
    let svc := match Annotations (svcMeta svc) with
               | None => svcSetAnnotations svc (Some ∅)
               | Some _ => svc
               end in
    let val := svcAnnotations svc !! autoTLSAnnotationName in
    if match val with
       | None => true
       | Some v => negb (String.eqb v (ArgoCDRepoServerTLSSecretName imports))
       end
    then
      (true, svcSetAnnotations svc
               (Some (<[autoTLSAnnotationName := ArgoCDRepoServerTLSSecretName imports]>
                        (svcAnnotations svc))))
    else (false, svc)
  else (false, svc).

(** [GetArgoServerServiceType] *)
Definition GetArgoServerServiceType (cr : ArgoCD) : string :=
  if Z.ltb 0 (Z.of_nat (String.length (ServerServiceType cr))) then ServerServiceType cr
  else ServiceTypeClusterIP.

End Services.

End V1alpha1.

(** ** Worlds after a call *)

(** The world after a call that changes no object. *)
Definition addCall (w : World) (c : Call) : World :=
  {| objects := objects w; calls := calls w ++ [c]; logs := logs w |}.

(** The world after a call that leaves the store with the objects [objs]. *)
Definition addWrite (w : World) (c : Call) (objs : gmap ObjectKey Object) : World :=
  {| objects := objs; calls := calls w ++ [c]; logs := logs w |}.

Definition addLog (w : World) (e : LogEntry) : World :=
  {| objects := objects w; calls := calls w; logs := logs w ++ [e] |}.

(** ** A settled store *)

(** The service under [k], if there is one, carries the auto-TLS annotation
    as wanted: [ensureAutoTLSAnnotation] finds nothing to change. *)
Definition annotationSettled (env : Env) (secretName : string) (wants : bool)
    (objs : gmap ObjectKey Object) (k : ObjectKey) : Prop :=
  ∀ live, objs !! k = Some live ->
    (ensureAutoTLSAnnotation (routeAPIFound env) (toService live) secretName wants).1 = false.

(** The services of the store are those that the instance asks for: the
    Grafana service is there exactly when Grafana is enabled, the HA
    services (the announce service of index 0, the master and the proxy)
    exactly when HA is enabled, the single-instance redis service exactly
    when it is not, the metrics, repo, server-metrics and server services
    are there, and the annotated ones carry the annotation as wanted. *)
Definition settled (env : Env) (imports : ServiceImports) (cr : ArgoCDServices)
    (objs : gmap ObjectKey Object) : Prop :=
  (is_Some (objs !! suffixKey cr "grafana") ↔ GrafanaEnabled (crSpec cr) = true)
  ∧ is_Some (objs !! suffixKey cr "metrics")
  ∧ (0 < ArgoCDDefaultRedisHAReplicas (common env) ->
     (is_Some (objs !! announceKey cr 0) ↔ HAEnabled (crSpec cr) = true))
  ∧ (is_Some (objs !! suffixKey cr "redis-ha") ↔ HAEnabled (crSpec cr) = true)
  ∧ (is_Some (objs !! suffixKey cr "redis-ha-haproxy") ↔ HAEnabled (crSpec cr) = true)
  ∧ annotationSettled env (ArgoCDRedisServerTLSSecretName (common env))
      (RedisWantsAutoTLS cr) objs (suffixKey cr "redis-ha-haproxy")
  ∧ (is_Some (objs !! suffixKey cr "redis") ↔ HAEnabled (crSpec cr) = false)
  ∧ annotationSettled env (ArgoCDRedisServerTLSSecretName (common env))
      (RedisWantsAutoTLS cr) objs (suffixKey cr "redis")
  ∧ is_Some (objs !! suffixKey cr "repo-server")
  ∧ annotationSettled env (ArgoCDRepoServerTLSSecretName imports)
      (RepoWantsAutoTLS cr) objs (suffixKey cr "repo-server")
  ∧ is_Some (objs !! suffixKey cr "server-metrics")
  ∧ is_Some (objs !! suffixKey cr "server")
  ∧ annotationSettled env (ArgoCDServerTLSSecretName imports)
      (ServerWantsAutoTLS cr) objs (suffixKey cr "server").

(** ** Further concrete inputs *)

Definition demoImports : ServiceImports :=
  {| ArgoCDRepoServerTLSSecretName := "argocd-repo-server-tls";
     ArgoCDServerTLSSecretName := "argocd-server-tls";
     ArgoCDDefaultRepoServerPort := 8081;
     ArgoCDDefaultRepoMetricsPort := 8084 |}.

(** Instance [demo] with the fields of the repo and server components; no
    route TLS and no service type are configured. *)
Definition demoServices (grafana ha : bool) (redisAutoTLS repoAutoTLS : string)
    : ArgoCDServices :=
  {| instance := demo grafana ha redisAutoTLS;
     RepoAutoTLS := repoAutoTLS; ServerRouteTLS := None; ServerServiceType := "" |}.

(** The services of [demo] without Grafana and without HA, none of them
    annotated. *)
Definition settledWorld : World :=
  worldOf [liveService "demo-metrics"; liveService "demo-redis";
           liveService "demo-repo-server"; liveService "demo-server-metrics";
           liveService "demo-server"].

(** A Dex reconciler that fails without a call to the store. *)
Definition failingDex : ArgoCD -> M (option error) :=
  λ _, ret (Some (ErrorString "dex")).

Definition demoHealth : RedisHealth :=
  {| ArgoCDRedisHAHealthConfigMapName := "argocd-redis-ha-health-configmap";
     LivenessScript := "liveness"; ReadinessScript := "readiness";
     SentinelLivenessScript := "sentinel-liveness" |}.

(** * Properties *)

(** ** Proof steps shared by the sections below *)

Ltac run :=
  unfold bind, ret, recordCall, logEntry, setObjects, getObjects; cbn.

Ltac rekey key :=
  repeat match goal with
         | |- context [serviceKey ?s] => change (serviceKey s) with key
         end.

Ltac in_list :=
  repeat first [rewrite elem_of_app | rewrite elem_of_cons]; naive_solver.

Lemma wellKeyed_service objs ns name live :
  wellKeyed objs -> objs !! (KService, ns, name) = Some live ->
  serviceKey (toService live) = (KService, ns, name).
Proof.
  intros Hwf Hl. destruct (Hwf _ _ Hl) as [H1 H2]. cbn in H1, H2.
  unfold serviceKey. cbn. by rewrite <- H1, <- H2.
Qed.

Lemma SetControllerReference_same_namespace cr m scheme :
  Namespace m = Namespace (crMeta cr) ->
  SetControllerReference cr m scheme =
  if bool_decide ("ArgoCD" ∈ scheme) then
    (None, withOwnerReferences m
             ({| OwnerKind := "ArgoCD"; OwnerName := Name (crMeta cr); Controller := true |}
              :: OwnerReferences m))
  else (Some (ErrorString "no kind is registered for the type ArgoCD"), m).
Proof.
  intros Hns. unfold SetControllerReference.
  destruct (bool_decide _); cbn; [| reflexivity].
  rewrite Hns, String.eqb_refl. cbn. by rewrite andb_false_r.
Qed.

Lemma wellKeyed_empty : wellKeyed ∅.
Proof. apply map_Forall_empty. Qed.

(** ** [ensureAutoTLSAnnotation] *)

Section AutoTLS.

Implicit Types (svc : Service) (secretName : string) (enabled : bool).

Lemma key_nonempty : String.eqb ServiceBetaOpenshiftKeyCertSecret "" = false.
Proof. reflexivity. Qed.

Lemma ensureAutoTLSAnnotation_route svc s e :
  ensureAutoTLSAnnotation true svc s e =
  let key := ServiceBetaOpenshiftKeyCertSecret in
  let a := svcAnnotations svc in
  if e then
    if decide (a !! key = Some s) then (false, svcSetAnnotations svc (Some a))
    else (true, svcSetAnnotations svc (Some (<[key:=s]> a)))
  else
    if decide (is_Some (a !! key)) then (true, svcSetAnnotations svc (Some (delete key a)))
    else (false, svcSetAnnotations svc (Some a)).
Proof.
  unfold ensureAutoTLSAnnotation. rewrite key_nonempty. cbn [negb].
  destruct svc as [[n ns l [a|] o d] sp]; cbn -[ServiceBetaOpenshiftKeyCertSecret];
    unfold svcSetAnnotations, svcAnnotations; cbn -[ServiceBetaOpenshiftKeyCertSecret].
  - destruct e.
    + destruct (a !! _) as [v|] eqn:Hv.
      * destruct (String.eqb_spec v s) as [->|Hne]; cbn [negb].
        -- rewrite decide_True by done. reflexivity.
        -- rewrite decide_False by congruence. reflexivity.
      * rewrite decide_False by done. reflexivity.
    + destruct (a !! _) as [v|] eqn:Hv.
      * rewrite bool_decide_eq_true_2, decide_True by eauto. reflexivity.
      * rewrite bool_decide_eq_false_2, decide_False by (intros [? ?]; discriminate).
        reflexivity.
  - rewrite lookup_empty. destruct e.
    + rewrite decide_False by done. reflexivity.
    + rewrite bool_decide_eq_false_2, decide_False by (intros [? ?]; discriminate).
      reflexivity.
Qed.

(** C10. When the Route API is not available, [ensureAutoTLSAnnotation]
    returns false and leaves the service as it is, whatever the service,
    the secret name and the enabled flag, also when [enabled] is true. *)
Theorem ensureAutoTLSAnnotation_without_route_api svc secretName enabled :
  ensureAutoTLSAnnotation false svc secretName enabled = (false, svc).
Proof. reflexivity. Qed.

(** C5. [ensureAutoTLSAnnotation] is idempotent: after a first call, a
    second call with the same arguments returns false and leaves the service
    exactly as the first call left it. *)
Theorem ensureAutoTLSAnnotation_idempotent routeAPI svc secretName enabled :
  let svc1 := (ensureAutoTLSAnnotation routeAPI svc secretName enabled).2 in
  ensureAutoTLSAnnotation routeAPI svc1 secretName enabled = (false, svc1).
Proof.
  destruct routeAPI; [| reflexivity].
  intros svc1. subst svc1. rewrite !ensureAutoTLSAnnotation_route. cbn zeta.
  set (key := ServiceBetaOpenshiftKeyCertSecret).
  set (a := svcAnnotations svc).
  destruct enabled.
  - destruct (decide (a !! key = Some secretName)) as [Hk|Hk]; cbn [snd].
    + change (svcAnnotations (svcSetAnnotations svc (Some a))) with a.
      rewrite decide_True by done. reflexivity.
    + change (svcAnnotations (svcSetAnnotations svc (Some (<[key:=secretName]> a))))
        with (<[key:=secretName]> a).
      rewrite decide_True by apply lookup_insert_eq. reflexivity.
  - destruct (decide (is_Some (a !! key))) as [Hk|Hk]; cbn [snd].
    + change (svcAnnotations (svcSetAnnotations svc (Some (delete key a))))
        with (delete key a).
      rewrite decide_False by (rewrite lookup_delete_eq; intros [? ?]; discriminate).
      reflexivity.
    + change (svcAnnotations (svcSetAnnotations svc (Some a))) with a.
      rewrite decide_False by done. reflexivity.
Qed.

(** C4, as stated, fails where the Route API is not available: with
    [enabled] true and the key absent the call returns false and sets
    nothing. And where the Route API is available, a call that returns
    false has still replaced a nil annotation map by an empty one. *)
Lemma ensureAutoTLSAnnotation_toggle_counterexample :
  svcAnnotations bareService !! ServiceBetaOpenshiftKeyCertSecret = None
  ∧ ensureAutoTLSAnnotation false bareService "argocd-operator-redis-tls" true
    = (false, bareService)
  ∧ ¬ ((ensureAutoTLSAnnotation false bareService "argocd-operator-redis-tls" true).1 = true)
  ∧ (ensureAutoTLSAnnotation true bareService "argocd-operator-redis-tls" false).1 = false
  ∧ (ensureAutoTLSAnnotation true bareService "argocd-operator-redis-tls" false).2
    ≠ bareService.
Proof.
  split; [reflexivity|]. split; [reflexivity|]. split; [cbn; discriminate|].
  split; [reflexivity|]. cbn. discriminate.
Qed.

(** C4 (amended). When the Route API is available,
    [ensureAutoTLSAnnotation svc secretName enabled] follows the toggle
    contract: if [enabled] and the key is absent or holds another value, it
    sets the key to [secretName] and returns true; if not [enabled] and the
    key is present, it removes the key and returns true; in every other case
    it returns false and leaves the service as it was, except that a nil
    annotation map has become an empty one. *)
Theorem ensureAutoTLSAnnotation_toggle_contract svc secretName enabled :
  let key := ServiceBetaOpenshiftKeyCertSecret in
  let a := svcAnnotations svc in
  let r := ensureAutoTLSAnnotation true svc secretName enabled in
  (enabled = true -> a !! key ≠ Some secretName ->
     r = (true, svcSetAnnotations svc (Some (<[key := secretName]> a))))
  ∧ (enabled = false -> is_Some (a !! key) ->
     r = (true, svcSetAnnotations svc (Some (delete key a))))
  ∧ ((enabled = true ∧ a !! key = Some secretName) ∨ (enabled = false ∧ a !! key = None) ->
     r = (false, match Annotations (svcMeta svc) with
                 | None => svcSetAnnotations svc (Some ∅)
                 | Some _ => svc
                 end)).
Proof.
  intros key a r. subst r. rewrite ensureAutoTLSAnnotation_route. cbn zeta.
  fold key. fold a.
  assert (Hsame : svcSetAnnotations svc (Some a) =
                  match Annotations (svcMeta svc) with
                  | None => svcSetAnnotations svc (Some ∅)
                  | Some _ => svc
                  end).
  { subst a. unfold svcAnnotations. destruct svc as [[n ns l [a|] o d] sp]; reflexivity. }
  repeat split.
  - intros -> Hk. rewrite decide_False by done. reflexivity.
  - intros -> Hk. rewrite decide_True by done. reflexivity.
  - intros [[-> Hk]|[-> Hk]].
    + rewrite decide_True by done. by rewrite Hsame.
    + rewrite decide_False by (rewrite Hk; intros [? ?]; discriminate). by rewrite Hsame.
Qed.

End AutoTLS.

(** ** The service reconcilers *)

Section ServiceReconcilers.

Implicit Types (env : Env) (cr : ArgoCD) (w : World).

(** C1, as stated, fails where the owner reference cannot be attached: the
    service is absent and Grafana is enabled, and the pass issues no create. *)
Lemma reconcileGrafanaService_counterexample :
  let cr := demo true false "" in
  let w := worldOf [] in
  let r := reconcileGrafanaService schemelessEnv cr w in
  objects w !! suffixKey cr "grafana" = None
  ∧ GrafanaEnabled (crSpec cr) = true
  ∧ writes (calls r.2) = []
  ∧ ¬ ((Create, suffixKey cr "grafana") ∈ calls r.2).
Proof.
  cbn zeta. split; [reflexivity|]. split; [reflexivity|].
  split; [by vm_compute|].
  vm_compute. intros Hin. apply list_elem_of_singleton in Hin. discriminate.
Qed.

(** C1 (amended). One pass of the Grafana service reconciler, on a store
    whose objects sit under their own names: if the service exists and
    Grafana is disabled it issues exactly one delete and no other write; if
    it exists and Grafana is enabled it issues no write; if it is absent and
    Grafana is disabled it issues nothing beyond the lookup; if it is absent
    and Grafana is enabled it tries to attach the owner reference: where
    that succeeds (the scheme knows the ArgoCD kind) it issues exactly one
    create, of the service carrying the reference, and where that fails it
    returns the error and issues no write. *)
Theorem reconcileGrafanaService_converges env cr w :
  let key := suffixKey cr "grafana" in
  let r := (reconcileGrafanaService env cr w).1 in
  let w' := (reconcileGrafanaService env cr w).2 in
  wellKeyed (objects w) ->
  (is_Some (objects w !! key) -> GrafanaEnabled (crSpec cr) = false ->
     calls w' = calls w ++ [(Get, key); (Delete, key)])
  ∧ (is_Some (objects w !! key) -> GrafanaEnabled (crSpec cr) = true ->
     calls w' = calls w ++ [(Get, key)] ∧ objects w' = objects w ∧ r = None)
  ∧ (objects w !! key = None -> GrafanaEnabled (crSpec cr) = false ->
     calls w' = calls w ++ [(Get, key)] ∧ objects w' = objects w ∧ r = None)
  ∧ (objects w !! key = None -> GrafanaEnabled (crSpec cr) = true ->
     "ArgoCD" ∈ Scheme env ->
     calls w' = calls w ++ [(Get, key); (Create, key)]
     ∧ (fault env Create key = None ->
        r = None ∧ ∃ o, objects w' = <[key := o]> (objects w)
                        ∧ OwnerReferences (objMeta o) =
                          [ {| OwnerKind := "ArgoCD"; OwnerName := Name (crMeta cr);
                               Controller := true |} ]))
  ∧ (objects w !! key = None -> GrafanaEnabled (crSpec cr) = true ->
     "ArgoCD" ∉ Scheme env ->
     calls w' = calls w ++ [(Get, key)] ∧ objects w' = objects w ∧ is_Some r).
Proof.
  intros key r w' Hwf. subst r w'.
  unfold reconcileGrafanaService, IsObjectFound. run.
  change (KService, Namespace (crMeta cr), _) with key.
  split; [| split; [| split; [| split]]].
  - intros [live Hlive] Hen. rewrite Hlive, Hen. cbn.
    assert (Hkey : serviceKey (toService live) = key)
      by exact (wellKeyed_service _ _ _ _ Hwf Hlive).
    unfold ClientDelete. run. rewrite Hkey.
    destruct (fault env Delete key); cbn; [by rewrite <- app_assoc|].
    rewrite Hlive. cbn. by rewrite <- app_assoc.
  - intros [live Hlive] Hen. by rewrite Hlive, Hen.
  - intros Habs Hen. by rewrite Habs, Hen.
  - intros Habs Hen Hscheme. rewrite Habs, Hen. cbn.
    rewrite SetControllerReference_same_namespace by reflexivity.
    rewrite bool_decide_eq_true_2 by done.
    unfold ClientCreate. run. rekey key.
    destruct (fault env Create key) as [e|]; cbn.
    + split; [by rewrite <- app_assoc | done].
    + rewrite Habs. cbn. split; [by rewrite <- app_assoc|].
      intros _. split; [done|]. eexists. split; reflexivity.
  - intros Habs Hen Hscheme. rewrite Habs, Hen. cbn.
    rewrite SetControllerReference_same_namespace by reflexivity.
    rewrite bool_decide_eq_false_2 by done. cbn. eauto.
Qed.

(** The indices of the announce services name distinct objects. *)
Lemma announceKey_inj cr : Inj (=) (=) (announceKey cr).
Proof.
  intros i j Heq. unfold announceKey in Heq.
  injection Heq as Heq.
  apply (inj (String.append _)) in Heq.
  apply (inj (String.append _)) in Heq.
  by apply (inj pretty) in Heq.
Qed.

Lemma announceServiceStep_present_disabled env cr i w live :
  wellKeyed (objects w) ->
  objects w !! announceKey cr i = Some live ->
  HAEnabled (crSpec cr) = false ->
  announceServiceStep env cr i w =
  let '(r, w1) := ClientDelete env (announceKey cr i)
                    {| objects := objects w;
                       calls := calls w ++ [(Get, announceKey cr i)];
                       logs := logs w |} in
  (inl r, w1).
Proof.
  intros Hwf Hlive Hha.
  pose proof (wellKeyed_service _ _ _ _ Hwf Hlive) as Hkey.
  unfold announceServiceStep, IsObjectFound. run.
  change (KService, Namespace (crMeta cr), _) with (announceKey cr i).
  rewrite Hlive, Hha. cbn -[pretty]. unfold announceKey in Hkey |- *.
  by rewrite Hkey.
Qed.

(** C2: what the code does instead. With HA disabled and the indexed
    announce services all present (more than one), a single pass deletes the
    service of index 0 and returns: the lookup and the delete of index 0 are
    its only calls, and every service of index 1 and above is still in the
    store after the pass. *)
Theorem reconcileRedisHAAnnounceServices_stops_at_first env cr w :
  let N := ArgoCDDefaultRedisHAReplicas (common env) in
  let w' := (reconcileRedisHAAnnounceServices env cr w).2 in
  wellKeyed (objects w) ->
  HAEnabled (crSpec cr) = false ->
  1 < N ->
  (∀ i, 0 <= i < N -> is_Some (objects w !! announceKey cr i)) ->
  fault env Delete (announceKey cr 0) = None ->
  calls w' = calls w ++ [(Get, announceKey cr 0); (Delete, announceKey cr 0)]
  ∧ objects w' = delete (announceKey cr 0) (objects w)
  ∧ ∀ i, 1 <= i < N -> is_Some (objects w' !! announceKey cr i).
Proof.
  intros N w' Hwf Hha HN Hall Hfault.
  destruct (Hall 0 ltac:(lia)) as [live Hlive].
  assert (Hrun : reconcileRedisHAAnnounceServices env cr w =
                 (None, {| objects := delete (announceKey cr 0) (objects w);
                           calls := calls w ++ [(Get, announceKey cr 0);
                                                (Delete, announceKey cr 0)];
                           logs := logs w |})).
  { unfold reconcileRedisHAAnnounceServices. fold N.
    rewrite seqZ_cons by lia. cbn [announceServicesLoop].
    unfold bind at 1.
    rewrite (announceServiceStep_present_disabled _ _ _ _ _ Hwf Hlive Hha).
    unfold ClientDelete. run. rewrite Hfault. cbn. rewrite Hlive. cbn.
    by rewrite <- app_assoc. }
  subst w'. rewrite Hrun. cbn [snd objects calls].
  split; [done|]. split; [done|].
  intros i Hi. rewrite lookup_delete_ne.
  - apply Hall. lia.
  - intros Heq. apply announceKey_inj in Heq. lia.
Qed.

(** Nor does a later pass reach them: with index 0 gone and HA disabled the
    loop returns at index 0 without a write. *)
Lemma reconcileRedisHAAnnounceServices_absent_first env cr w :
  let N := ArgoCDDefaultRedisHAReplicas (common env) in
  HAEnabled (crSpec cr) = false ->
  0 < N ->
  objects w !! announceKey cr 0 = None ->
  reconcileRedisHAAnnounceServices env cr w =
  (None, {| objects := objects w; calls := calls w ++ [(Get, announceKey cr 0)];
            logs := logs w |}).
Proof.
  intros N Hha HN Habs.
  unfold reconcileRedisHAAnnounceServices. fold N.
  rewrite seqZ_cons by lia. cbn [announceServicesLoop].
  unfold announceServiceStep, IsObjectFound. run.
  change (KService, Namespace (crMeta cr), _) with (announceKey cr 0).
  by rewrite Habs, Hha.
Qed.

(** C3: what the code does instead. A found single-instance redis service
    with HA enabled whose auto-TLS annotation also differs from the desired
    one is updated, not deleted: the pass issues the lookup and one update,
    and the service is still in the store afterwards. *)
Theorem reconcileRedisService_updates_instead_of_deleting env cr w live :
  let key := suffixKey cr "redis" in
  let secret := ArgoCDRedisServerTLSSecretName (common env) in
  let r := reconcileRedisService env cr w in
  wellKeyed (objects w) ->
  objects w !! key = Some live ->
  HAEnabled (crSpec cr) = true ->
  (ensureAutoTLSAnnotation (routeAPIFound env) (toService live) secret
     (RedisWantsAutoTLS cr)).1 = true ->
  calls r.2 = calls w ++ [(Get, key); (Update, key)]
  ∧ (fault env Update key = None -> r.1 = None ∧ is_Some (objects r.2 !! key)).
Proof.
  intros key secret r Hwf Hlive Hha Hchg. subst r.
  assert (Hkey : serviceKey (toService live) = key)
    by exact (wellKeyed_service _ _ _ _ Hwf Hlive).
  unfold reconcileRedisService, IsObjectFound. run.
  change (KService, Namespace (crMeta cr), _) with key.
  rewrite Hlive. fold secret.
  destruct (ensureAutoTLSAnnotation _ _ _ _) as [changed svc] eqn:He.
  cbn in Hchg. subst changed.
  assert (Hk : serviceKey svc = key).
  { rewrite <- Hkey. unfold serviceKey.
    assert (Hm : Name (svcMeta svc) = Name (svcMeta (toService live))
                 ∧ Namespace (svcMeta svc) = Namespace (svcMeta (toService live))).
    { revert He. unfold ensureAutoTLSAnnotation.
      destruct (routeAPIFound env); [|intros [=]].
      cbn -[ServiceBetaOpenshiftKeyCertSecret].
      repeat case_match; intros [= <-]; simplify_eq; done. }
    destruct Hm as [-> ->]. done. }
  unfold ClientUpdate. run. rewrite Hk.
  destruct (fault env Update key) eqn:Hf; cbn.
  - split; [by rewrite <- app_assoc|]. done.
  - rewrite Hlive. cbn. split; [by rewrite <- app_assoc|].
    intros _. split; [done|]. rewrite lookup_insert_eq. eauto.
Qed.

(** The sibling [reconcileRedisHAProxyService] has the order that C3 states:
    the variant check comes first, and the found service is deleted whatever
    its annotations. *)
Lemma reconcileRedisHAProxyService_deletes_first env cr w live :
  let key := suffixKey cr "redis-ha-haproxy" in
  wellKeyed (objects w) ->
  objects w !! key = Some live ->
  HAEnabled (crSpec cr) = false ->
  calls (reconcileRedisHAProxyService env cr w).2 = calls w ++ [(Get, key); (Delete, key)].
Proof.
  intros key Hwf Hlive Hha.
  assert (Hkey : serviceKey (toService live) = key)
    by exact (wellKeyed_service _ _ _ _ Hwf Hlive).
  unfold reconcileRedisHAProxyService, IsObjectFound. run.
  change (KService, Namespace (crMeta cr), _) with key.
  rewrite Hlive, Hha. cbn. rewrite Hkey.
  unfold ClientDelete. run.
  destruct (fault env Delete key); cbn; [by rewrite <- app_assoc|].
  rewrite Hlive. cbn. by rewrite <- app_assoc.
Qed.

End ServiceReconcilers.

(** ** Teardown of the ApplicationSet component *)

Section Teardown.

Implicit Types (env : Env) (k : Kind) (name ns : string) (w : World).

Lemma deleteKind_calls env k name ns w :
  calls (deleteKind env k name ns w).2 = calls w ++ [(Delete, (k, ns, name))]
  ∧ logs (deleteKind env k name ns w).2 = logs w.
Proof.
  unfold deleteKind, ClientDelete. run.
  destruct (fault env Delete (k, ns, name)) as [e|]; cbn.
  - by destruct (IsNotFound e).
  - by destruct (objects w !! (k, ns, name)).
Qed.

Lemma deleteKind_tolerated env k name ns w :
  deleteTolerated env (k, ns, name) -> (deleteKind env k name ns w).1 = None.
Proof.
  unfold deleteTolerated, deleteKind, ClientDelete. run.
  destruct (fault env Delete (k, ns, name)) as [e|]; cbn.
  - by intros ->.
  - by destruct (objects w !! (k, ns, name)).
Qed.

Lemma deleteKind_fails env k name ns w err :
  fault env Delete (k, ns, name) = Some err -> IsNotFound err = false ->
  (deleteKind env k name ns w).1 = Some err.
Proof.
  unfold deleteKind, ClientDelete. run. by intros -> ->.
Qed.

(** One step of [DeleteResources]: the delete of kind [k], which fails with
    [err] when [k] is the failing kind and returns nil otherwise. *)
Ltac teardown_step Hstep :=
  match goal with
  | |- context [deleteKind ?env ?k ?name ?ns ?w0] =>
      let Hc := fresh "Hc" in let Hl := fresh "Hl" in let Hs := fresh "Hs" in
      destruct (deleteKind_calls env k name ns w0) as [Hc Hl];
      pose proof (Hstep k w0 ltac:(unfold teardownKinds; repeat constructor)) as Hs;
      destruct (deleteKind env k name ns w0) as [? ?]; cbn [fst snd] in Hc, Hl, Hs;
      destruct Hs as [[? ->]|[? ->]]; try congruence;
      unfold ret, logEntry; cbn -[deleteKind] in *
  end.

(** C6. When exactly one resource's delete fails with an error that is not
    NotFound, [DeleteResources] still issues the delete of every resource of
    the component, in the order of its steps, and returns the error of the
    failing delete, whichever step it is; that error is the only one
    logged. *)
Theorem DeleteResources_aggregates env name ns w failing err :
  let r := DeleteResources env name ns w in
  failing ∈ teardownKinds ->
  fault env Delete (failing, ns, name) = Some err ->
  IsNotFound err = false ->
  (∀ k, k ∈ teardownKinds -> k ≠ failing -> deleteTolerated env (k, ns, name)) ->
  calls r.2 = calls w ++ map (λ k, (Delete, (k, ns, name))) teardownKinds
  ∧ r.1 = Some err
  ∧ ∃ msg, logs r.2 = logs w ++ [LogError err msg].
Proof.
  intros r Hin Hfail Hnf Hothers. subst r.
  unfold DeleteResources, DeleteService, DeleteDeployment, DeleteRoleBinding,
    DeleteRole, DeleteServiceAccount.
  assert (Hstep : ∀ k w0,
    k ∈ teardownKinds ->
    (k = failing ∧ (deleteKind env k name ns w0).1 = Some err)
    ∨ (k ≠ failing ∧ (deleteKind env k name ns w0).1 = None)).
  { intros k w0 Hk. destruct (decide (k = failing)) as [->|Hne].
    - left. split; [done|]. by apply deleteKind_fails.
    - right. split; [done|]. apply deleteKind_tolerated. by apply Hothers. }
  unfold bind.
  assert (Hcases : failing = KService ∨ failing = KDeployment ∨ failing = KRoleBinding
                   ∨ failing = KRole ∨ failing = KServiceAccount).
  { unfold teardownKinds in Hin.
    repeat (apply elem_of_cons in Hin as [Hin|Hin]; [tauto|]).
    by apply elem_of_nil in Hin. }
  clear Hin Hfail Hothers.
  destruct Hcases as [->|[->|[->|[->| ->]]]];
    do 5 teardown_step Hstep;
    (split;
     [ repeat match goal with H : calls _ = _ |- _ => rewrite H; clear H end;
       by rewrite <- ?app_assoc
     | split; [done|];
       repeat match goal with H : logs _ = _ |- _ => rewrite H; clear H end;
       eexists; reflexivity ]).
Qed.

End Teardown.

(** ** The Redis HA config map and the deletes *)

Section ConfigMaps.

Implicit Types (env : Env) (rr : RedisReconciler) (cr : ArgoCD) (w : World).

(** C7: what the code does instead. With the namespace of the instance
    marked for deletion, a pass whose lookups and delete the API server
    answers from the store deletes the managed config map and then issues a
    create of it in the same pass; where the create is answered too, the
    pass succeeds and the config map is in the store afterwards. *)
Theorem reconcileHAConfigMap_recreates_during_teardown env rr w nsObj t :
  let cmKey := haConfigMapKey env rr in
  let r := reconcileHAConfigMap env rr w in
  requestError rr = None ->
  fault env Get (namespaceKey rr) = None ->
  objects w !! namespaceKey rr = Some nsObj ->
  DeletionTimestamp (objMeta nsObj) = Some t ->
  fault env Delete cmKey = None ->
  fault env Get cmKey = None ->
  calls r.2 = calls w ++ [(Get, namespaceKey rr); (Delete, cmKey); (Get, cmKey);
                          (Create, cmKey)]
  ∧ (fault env Create cmKey = None -> r.1 = None ∧ is_Some (objects r.2 !! cmKey)).
Proof.
  intros cmKey r Hreq Hfns Hns Hdel Hfdel Hfget. subst r.
  unfold reconcileHAConfigMap, RequestConfigMap. rewrite Hreq.
  unfold GetNamespace, ClientGet. run.
  change (KNamespace, "", Namespace (crMeta (Instance rr))) with (namespaceKey rr).
  rewrite Hfns. cbn. rewrite Hns. cbn. rewrite Hdel.
  rewrite bool_decide_eq_true_2 by eauto.
  unfold deleteConfigMap, DeleteConfigMap, ClientDelete. run.
  change (KConfigMap, Namespace (crMeta (Instance rr)), ArgoCDRedisHAConfigMapName (common env))
    with cmKey.
  rewrite Hfdel. cbn.
  rewrite SetControllerReference_same_namespace by reflexivity.
  destruct (objects w !! cmKey) as [old|] eqn:Hold; cbn;
    unfold GetConfigMap, ClientGet; run;
    change (KConfigMap, Namespace (crMeta (Instance rr)),
            ArgoCDRedisHAConfigMapName (common env)) with cmKey;
    rewrite Hfget; cbn; rewrite ?lookup_delete_eq, ?Hold;
    destruct (bool_decide _); cbn;
    unfold CreateConfigMap, ClientCreate; run;
    change (configMapKey _) with cmKey;
    (destruct (fault env Create cmKey) as [e|]; cbn;
     [ split; [by rewrite <- !app_assoc | done]
     | rewrite ?lookup_delete_eq, ?Hold; cbn;
       split; [by rewrite <- !app_assoc |];
       intros _; split; [done|]; rewrite lookup_insert_eq; eauto ]).
Qed.

(** C8, as stated, fails for the service reconcilers: the Grafana pass that
    reaches the create path returns the owner-reference error to its caller
    and creates nothing. *)
Lemma owner_reference_error_counterexample :
  let cr := demo true false "" in
  let svc := newServiceWithSuffix schemelessEnv "grafana" "grafana" cr in
  let r := reconcileGrafanaService schemelessEnv cr (worldOf []) in
  is_Some (SetControllerReference cr (svcMeta svc) (Scheme schemelessEnv)).1
  ∧ r.1 = (SetControllerReference cr (svcMeta svc) (Scheme schemelessEnv)).1
  ∧ ¬ ((Create, suffixKey cr "grafana") ∈ calls r.2).
Proof.
  cbn zeta. split; [vm_compute; eauto|]. split; [by vm_compute|].
  vm_compute. intros Hin. apply list_elem_of_singleton in Hin. discriminate.
Qed.

(** C8 (amended). When the owner reference cannot be attached: a pass of
    [reconcileHAConfigMap] that reaches the create path logs the error and
    goes on to create the config map, and its result is that of the create,
    never the owner-reference error; a pass of [reconcileGrafanaService]
    that reaches the create path returns the owner-reference error to its
    caller and issues no create. *)
Theorem owner_reference_error_policy env rr cr w nsObj :
  let cmKey := haConfigMapKey env rr in
  let cm := reconcileHAConfigMap env rr w in
  let svc := newServiceWithSuffix env "grafana" "grafana" cr in
  let g := reconcileGrafanaService env cr w in
  "ArgoCD" ∉ Scheme env ->
  (requestError rr = None ->
   fault env Get (namespaceKey rr) = None ->
   objects w !! namespaceKey rr = Some nsObj ->
   fault env Get cmKey = None ->
   match DeletionTimestamp (objMeta nsObj) with
   | None => objects w !! cmKey = None
   | Some _ => fault env Delete cmKey = None
   end ->
   (∃ err, LogError err "reconcileHAConfigMap: failed to set owner reference for configMap"
           ∈ logs cm.2)
   ∧ (Create, cmKey) ∈ calls cm.2
   ∧ match fault env Create cmKey with
     | None => cm.1 = None ∧ is_Some (objects cm.2 !! cmKey)
     | Some e => ∃ msg, cm.1 = Some (Wrap e msg)
     end)
  ∧ (objects w !! suffixKey cr "grafana" = None ->
     GrafanaEnabled (crSpec cr) = true ->
     is_Some g.1
     ∧ g.1 = (SetControllerReference cr (svcMeta svc) (Scheme env)).1
     ∧ calls g.2 = calls w ++ [(Get, suffixKey cr "grafana")]
     ∧ objects g.2 = objects w).
Proof.
  intros cmKey cm svc g Hscheme. split.
  - intros Hreq Hfns Hns Hfget Hpath. subst cm.
    unfold reconcileHAConfigMap, RequestConfigMap. rewrite Hreq.
    unfold GetNamespace, ClientGet. run.
    change (KNamespace, "", Namespace (crMeta (Instance rr))) with (namespaceKey rr).
    rewrite Hfns. cbn. rewrite Hns. cbn.
    change (KConfigMap, Namespace (crMeta (Instance rr)), ArgoCDRedisHAConfigMapName (common env))
      with cmKey.
    destruct (DeletionTimestamp (objMeta nsObj)) as [t|] eqn:Hdel.
    + rewrite bool_decide_eq_true_2 by eauto.
      unfold deleteConfigMap, DeleteConfigMap, ClientDelete. run. change (KConfigMap, Namespace (crMeta (Instance rr)), ArgoCDRedisHAConfigMapName (common env)) with cmKey.
      rewrite Hpath. cbn.
      destruct (objects w !! cmKey) as [old|] eqn:Hold; cbn.
      * unfold GetConfigMap, ClientGet. run. change (KConfigMap, Namespace (crMeta (Instance rr)), ArgoCDRedisHAConfigMapName (common env)) with cmKey. rewrite Hfget. cbn.
        rewrite lookup_delete_eq.
        rewrite SetControllerReference_same_namespace by reflexivity.
        rewrite bool_decide_eq_false_2 by done. cbn.
        unfold CreateConfigMap, ClientCreate. run.
        change (configMapKey _) with cmKey.
        destruct (fault env Create cmKey) as [e|]; cbn.
        -- split; [exists (ErrorString "no kind is registered for the type ArgoCD"); in_list|].
           split; [in_list|]. eauto.
        -- rewrite lookup_delete_eq. cbn.
           split; [exists (ErrorString "no kind is registered for the type ArgoCD"); in_list|].
           split; [in_list|].
           split; [done|]. rewrite lookup_insert_eq. eauto.
      * unfold GetConfigMap, ClientGet. run. change (KConfigMap, Namespace (crMeta (Instance rr)), ArgoCDRedisHAConfigMapName (common env)) with cmKey. rewrite Hfget. cbn.
        rewrite Hold.
        rewrite SetControllerReference_same_namespace by reflexivity.
        rewrite bool_decide_eq_false_2 by done. cbn.
        unfold CreateConfigMap, ClientCreate. run.
        change (configMapKey _) with cmKey.
        destruct (fault env Create cmKey) as [e|]; cbn.
        -- split; [exists (ErrorString "no kind is registered for the type ArgoCD"); in_list|].
           split; [in_list|]. eauto.
        -- rewrite Hold. cbn.
           split; [exists (ErrorString "no kind is registered for the type ArgoCD"); in_list|].
           split; [in_list|].
           split; [done|]. rewrite lookup_insert_eq. eauto.
    + rewrite bool_decide_eq_false_2 by (intros [? ?]; discriminate). cbn.
      unfold GetConfigMap, ClientGet. run. change (KConfigMap, Namespace (crMeta (Instance rr)), ArgoCDRedisHAConfigMapName (common env)) with cmKey. rewrite Hfget. cbn.
      rewrite Hpath.
      rewrite SetControllerReference_same_namespace by reflexivity.
      rewrite bool_decide_eq_false_2 by done. cbn.
      unfold CreateConfigMap, ClientCreate. run.
      change (configMapKey _) with cmKey.
      destruct (fault env Create cmKey) as [e|]; cbn.
      * split; [exists (ErrorString "no kind is registered for the type ArgoCD"); in_list|].
           split; [in_list|]. eauto.
      * rewrite Hpath. cbn.
        split; [exists (ErrorString "no kind is registered for the type ArgoCD"); in_list|].
           split; [in_list|].
        split; [done|]. rewrite lookup_insert_eq. eauto.
  - intros Habs Hen. subst g svc.
    rewrite SetControllerReference_same_namespace by reflexivity.
    unfold reconcileGrafanaService, IsObjectFound. run.
    change (KService, Namespace (crMeta cr), Name (crMeta cr) +:+ "-" +:+ "grafana")
      with (suffixKey cr "grafana").
    rewrite Habs, Hen. cbn.
    rewrite SetControllerReference_same_namespace by reflexivity.
    rewrite bool_decide_eq_false_2 by done. cbn. eauto.
Qed.

(** C9, as stated, fails for [deleteConfigMap]: a failure that is not
    NotFound is not returned unchanged, but wrapped. *)
Lemma deleteConfigMap_wraps_counterexample :
  let env := failingDeleteEnv KConfigMap (StatusError StatusReasonConflict) in
  let w := worldOf [liveConfigMap] in
  (DeleteConfigMap env "argocd-redis-ha-configmap" "ns1" w).1
  = Some (StatusError StatusReasonConflict)
  ∧ IsNotFound (StatusError StatusReasonConflict) = false
  ∧ (deleteConfigMap env "argocd-redis-ha-configmap" "ns1" w).1
    ≠ Some (StatusError StatusReasonConflict).
Proof.
  cbn zeta. split; [by vm_compute|]. split; [reflexivity|].
  vm_compute. discriminate.
Qed.

(** Where the lookup finds the binding and the delete call then reports
    NotFound, [DeleteClusterRoleBinding] returns that NotFound, while
    [deleteConfigMap] returns nil when its delete call reports NotFound: the
    test of [IsNotFound] is on the lookup only. *)
Lemma DeleteClusterRoleBinding_delete_not_found :
  let race k := failingDeleteEnv k (StatusError StatusReasonNotFound) in
  (DeleteClusterRoleBinding (race KClusterRoleBinding) "demo-argocd-server"
     (worldOf [liveBinding])).1
  = Some (StatusError StatusReasonNotFound)
  ∧ (deleteConfigMap (race KConfigMap) "argocd-redis-ha-configmap" "ns1"
       (worldOf [liveConfigMap])).1 = None.
Proof. cbn zeta. split; by vm_compute. Qed.

(** C9 (amended). [DeleteClusterRoleBinding] returns nil when the lookup of
    the binding reports NotFound, and returns every failure that is not
    NotFound unchanged, be it of the lookup or of the delete call;
    [deleteConfigMap] returns nil when the store reports NotFound for the
    config map, and for every other failure returns the error wrapped with
    a message that names the config map and its namespace. *)
Theorem delete_tolerates_not_found env name namespace w :
  let crbKey : ObjectKey := (KClusterRoleBinding, "", name) in
  let lookup := GetClusterRoleBinding env name w in
  let crb := DeleteClusterRoleBinding env name w in
  let store := DeleteConfigMap env name namespace w in
  let cm := deleteConfigMap env name namespace w in
  wellKeyed (objects w) ->
  (∀ err, lookup.1 = inr err -> IsNotFound err = true -> crb.1 = None)
  ∧ (∀ err, lookup.1 = inr err -> IsNotFound err = false -> crb.1 = Some err)
  ∧ (∀ existingCRB err, lookup.1 = inl existingCRB ->
       (ClientDelete env crbKey lookup.2).1 = Some err -> IsNotFound err = false ->
       crb.1 = Some err)
  ∧ (∀ err, store.1 = Some err -> IsNotFound err = true -> cm.1 = None)
  ∧ (∀ err, store.1 = Some err -> IsNotFound err = false ->
       cm.1 = Some (Wrap err ("deleteConfigMap: failed to delete configMap " +:+ name
                              +:+ " in namespace " +:+ namespace))).
Proof.
  intros crbKey lookup crb store cm Hwf. subst lookup crb store cm.
  unfold DeleteClusterRoleBinding, deleteConfigMap, bind.
  destruct (GetClusterRoleBinding env name w) as [res w1] eqn:Hget.
  destruct (DeleteConfigMap env name namespace w) as [del w2] eqn:Hdel.
  cbn [fst snd].
  repeat split.
  - intros err -> Hnf. rewrite Hnf. done.
  - intros err -> Hnf. rewrite Hnf. done.
  - intros existingCRB err ->.
    assert (Hk : (KClusterRoleBinding, Namespace (objMeta existingCRB),
                  Name (objMeta existingCRB)) = crbKey).
    { revert Hget. unfold GetClusterRoleBinding, ClientGet. run. fold crbKey.
      destruct (fault env Get crbKey); cbn; [intros [=]|].
      destruct (objects w !! crbKey) as [o|] eqn:Ho; intros [= <- <-].
      destruct (Hwf _ _ Ho) as [H1 H2]. cbn in H1, H2. by rewrite <- H1, <- H2. }
    rewrite Hk. destruct (ClientDelete env crbKey w1) as [[e|] ?]; cbn [fst snd].
    + by intros [= ->] _.
    + discriminate.
  - intros err -> Hnf. rewrite Hnf. done.
  - intros err -> Hnf. rewrite Hnf. done.
Qed.

End ConfigMaps.

(** ** The theorems at concrete inputs *)

(** A store built from a list of well-keyed entries is well keyed. *)
Lemma wellKeyed_worldOf (objs : list (ObjectKey * Object)) :
  Forall (λ kv : ObjectKey * Object,
            kv.1.1.2 = Namespace (objMeta kv.2) ∧ kv.1.2 = Name (objMeta kv.2)) objs ->
  wellKeyed (objects (worldOf objs)).
Proof.
  induction 1 as [|[k o] objs [H1 H2] _ IH]; cbn.
  - apply map_Forall_empty.
  - apply map_Forall_insert_2; [done | exact IH].
Defined.

(** C4 at a service without annotations: the annotation is set. *)
Lemma ensureAutoTLSAnnotation_toggle_contract_witness :
  ensureAutoTLSAnnotation true bareService "argocd-operator-redis-tls" true
  = (true, svcSetAnnotations bareService
             (Some (<[ServiceBetaOpenshiftKeyCertSecret := "argocd-operator-redis-tls"]>
                      (svcAnnotations bareService)))).
Proof.
  apply (proj1 (ensureAutoTLSAnnotation_toggle_contract bareService
                  "argocd-operator-redis-tls" true)).
  - reflexivity.
  - vm_compute. discriminate.
Defined.

(** C1 at instance [demo] with Grafana enabled and an empty store: one
    lookup, one create. *)
Lemma reconcileGrafanaService_converges_witness :
  let cr := demo true false "" in
  calls (reconcileGrafanaService (demoEnv false) cr (worldOf [])).2
  = calls (worldOf []) ++ [(Get, suffixKey cr "grafana"); (Create, suffixKey cr "grafana")].
Proof.
  cbn zeta.
  destruct (reconcileGrafanaService_converges (demoEnv false) (demo true false "")
              (worldOf []) wellKeyed_empty)
    as (_ & _ & _ & Hcreate & _).
  apply Hcreate.
  - reflexivity.
  - reflexivity.
  - vm_compute. apply list_elem_of_singleton. reflexivity.
Defined.

(** C2 at instance [demo] with HA disabled and the three announce services
    in the store: index 0 is deleted, indices 1 and 2 stay. *)
Lemma reconcileRedisHAAnnounceServices_stops_at_first_witness :
  let cr := demo false false "" in
  let w := worldOf [liveService "demo-redis-ha-announce-0";
                    liveService "demo-redis-ha-announce-1";
                    liveService "demo-redis-ha-announce-2"] in
  let w' := (reconcileRedisHAAnnounceServices (demoEnv false) cr w).2 in
  calls w' = calls w ++ [(Get, announceKey cr 0); (Delete, announceKey cr 0)]
  ∧ objects w' = delete (announceKey cr 0) (objects w)
  ∧ ∀ i, 1 <= i < 3 -> is_Some (objects w' !! announceKey cr i).
Proof.
  cbn zeta.
  apply (reconcileRedisHAAnnounceServices_stops_at_first (demoEnv false)
           (demo false false "")).
  - apply wellKeyed_worldOf. repeat constructor.
  - reflexivity.
  - reflexivity.
  - intros i Hi. change (0 <= i < 3) in Hi.
    assert (Hcases : i = 0 ∨ i = 1 ∨ i = 2) by lia.
    destruct Hcases as [->|[->| ->]]; vm_compute; eauto.
  - reflexivity.
Defined.

(** C3 at instance [demo] with HA enabled and auto-TLS wanted, the redis
    service being in the store without the annotation: an update, no
    delete. *)
Lemma reconcileRedisService_updates_instead_of_deleting_witness :
  let cr := demo false true "openshift" in
  let w := worldOf [liveService "demo-redis"] in
  let r := reconcileRedisService (demoEnv true) cr w in
  calls r.2 = calls w ++ [(Get, suffixKey cr "redis"); (Update, suffixKey cr "redis")]
  ∧ (fault (demoEnv true) Update (suffixKey cr "redis") = None ->
     r.1 = None ∧ is_Some (objects r.2 !! suffixKey cr "redis")).
Proof.
  cbn zeta.
  apply (reconcileRedisService_updates_instead_of_deleting (demoEnv true)
           (demo false true "openshift") _ (liveService "demo-redis").2).
  - apply wellKeyed_worldOf. repeat constructor.
  - by vm_compute.
  - reflexivity.
  - by vm_compute.
Defined.

(** C6 with the delete of the role binding failing on a conflict: the five
    deletes are issued and the conflict is returned. *)
Lemma DeleteResources_aggregates_witness :
  let env := failingDeleteEnv KRoleBinding (StatusError StatusReasonConflict) in
  let w := worldOf (liveObject <$> teardownKinds) in
  let r := DeleteResources env "demo-applicationset" "ns1" w in
  calls r.2 = calls w ++ map (λ k, (Delete, (k, "ns1", "demo-applicationset"))) teardownKinds
  ∧ r.1 = Some (StatusError StatusReasonConflict)
  ∧ ∃ msg, logs r.2 = logs w ++ [LogError (StatusError StatusReasonConflict) msg].
Proof.
  cbn zeta.
  apply (DeleteResources_aggregates _ _ _ _ KRoleBinding).
  - unfold teardownKinds. repeat constructor.
  - reflexivity.
  - reflexivity.
  - intros k _ Hne. unfold deleteTolerated, failingDeleteEnv. cbn.
    destruct (decide (k = KRoleBinding)); [contradiction | exact I].
Defined.

(** C7 at namespace [ns1] marked for deletion, the config map being in the
    store: delete, then create. *)
Lemma reconcileHAConfigMap_recreates_during_teardown_witness :
  let w := worldOf [namespaceObject (Some 1700000000); liveConfigMap] in
  let r := reconcileHAConfigMap (demoEnv false) demoRedis w in
  let cmKey := haConfigMapKey (demoEnv false) demoRedis in
  calls r.2 = calls w ++ [(Get, namespaceKey demoRedis); (Delete, cmKey); (Get, cmKey);
                          (Create, cmKey)]
  ∧ (fault (demoEnv false) Create cmKey = None ->
     r.1 = None ∧ is_Some (objects r.2 !! cmKey)).
Proof.
  cbn zeta.
  apply (reconcileHAConfigMap_recreates_during_teardown (demoEnv false) demoRedis _
           (namespaceObject (Some 1700000000)).2 1700000000).
  - reflexivity.
  - reflexivity.
  - by vm_compute.
  - reflexivity.
  - reflexivity.
  - reflexivity.
Defined.

(** C8 with a scheme that does not know the ArgoCD kind: the config map is
    created all the same, and the failure is in the log. *)
Lemma owner_reference_error_policy_witness :
  let w := worldOf [namespaceObject None] in
  let cm := reconcileHAConfigMap schemelessEnv demoRedis w in
  let cmKey := haConfigMapKey schemelessEnv demoRedis in
  (∃ err, LogError err "reconcileHAConfigMap: failed to set owner reference for configMap"
          ∈ logs cm.2)
  ∧ (Create, cmKey) ∈ calls cm.2
  ∧ cm.1 = None ∧ is_Some (objects cm.2 !! cmKey).
Proof.
  cbn zeta.
  assert (Hscheme : "ArgoCD" ∉ Scheme schemelessEnv).
  { cbn. apply not_elem_of_nil. }
  destruct (owner_reference_error_policy schemelessEnv demoRedis (demo true false "")
              (worldOf [namespaceObject None]) (namespaceObject None).2 Hscheme)
    as [Hcm _].
  apply Hcm.
  - reflexivity.
  - reflexivity.
  - by vm_compute.
  - reflexivity.
  - by vm_compute.
Defined.

(** C9 at a binding that is not in the store: nil. *)
Lemma delete_tolerates_not_found_witness :
  (DeleteClusterRoleBinding (demoEnv false) "demo-argocd-server" (worldOf [])).1 = None.
Proof.
  destruct (delete_tolerates_not_found (demoEnv false) "demo-argocd-server" "ns1"
              (worldOf []) wellKeyed_empty)
    as (Hnf & _).
  apply (Hnf (StatusError StatusReasonNotFound)).
  - by vm_compute.
  - reflexivity.
Defined.

(** * Further properties *)

(** ** [ensureAutoTLSAnnotation], continued *)

Section MoreAutoTLS.

Implicit Types (svc : Service) (secretName : string) (enabled : bool).

(** X1. Where the Route API is available, the service that
    [ensureAutoTLSAnnotation] leaves holds the auto-TLS key with the secret
    name if [enabled], and does not hold the key otherwise, whatever the
    annotations were before. *)
Theorem ensureAutoTLSAnnotation_reaches_desired svc secretName enabled :
  svcAnnotations (ensureAutoTLSAnnotation true svc secretName enabled).2
    !! ServiceBetaOpenshiftKeyCertSecret
  = if enabled then Some secretName else None.
Proof.
  rewrite ensureAutoTLSAnnotation_route. cbn zeta.
  set (key := ServiceBetaOpenshiftKeyCertSecret).
  set (a := svcAnnotations svc).
  destruct enabled.
  - destruct (decide (a !! key = Some secretName)) as [Hk|Hk]; cbn [snd].
    + exact Hk.
    + apply lookup_insert_eq.
  - destruct (decide (is_Some (a !! key))) as [Hk|Hk]; cbn [snd].
    + apply lookup_delete_eq.
    + change (a !! key = None). by apply eq_None_not_Some.
Qed.

(** X2. [ensureAutoTLSAnnotation] touches nothing but the auto-TLS key: the
    name, namespace, labels, owner references, deletion timestamp and spec
    of the service are as before, and so is the value of every other
    annotation key. *)
Theorem ensureAutoTLSAnnotation_frame routeAPI svc secretName enabled :
  let svc' := (ensureAutoTLSAnnotation routeAPI svc secretName enabled).2 in
  Name (svcMeta svc') = Name (svcMeta svc)
  ∧ Namespace (svcMeta svc') = Namespace (svcMeta svc)
  ∧ Labels (svcMeta svc') = Labels (svcMeta svc)
  ∧ OwnerReferences (svcMeta svc') = OwnerReferences (svcMeta svc)
  ∧ DeletionTimestamp (svcMeta svc') = DeletionTimestamp (svcMeta svc)
  ∧ svcSpec svc' = svcSpec svc
  ∧ ∀ k, k ≠ ServiceBetaOpenshiftKeyCertSecret ->
         svcAnnotations svc' !! k = svcAnnotations svc !! k.
Proof.
  destruct routeAPI; [| cbn; by repeat split].
  cbn zeta. rewrite ensureAutoTLSAnnotation_route. cbn zeta.
  set (key := ServiceBetaOpenshiftKeyCertSecret).
  set (a := svcAnnotations svc).
  destruct enabled; [destruct (decide (a !! key = Some secretName))
                    | destruct (decide (is_Some (a !! key)))];
    cbn [snd]; (repeat split; try reflexivity); intros k Hk;
    change (svcAnnotations (svcSetAnnotations svc (Some ?m))) with m;
    first [reflexivity | by rewrite lookup_insert_ne | by rewrite lookup_delete_ne].
Qed.

(** X3. The flag that [ensureAutoTLSAnnotation] returns is exact: it is
    true if and only if the annotations of the service have changed. *)
Theorem ensureAutoTLSAnnotation_flag_exact routeAPI svc secretName enabled :
  let r := ensureAutoTLSAnnotation routeAPI svc secretName enabled in
  r.1 = true ↔ svcAnnotations r.2 ≠ svcAnnotations svc.
Proof.
  destruct routeAPI; [| cbn; split; [discriminate | congruence]].
  cbn zeta. rewrite ensureAutoTLSAnnotation_route. cbn zeta.
  set (key := ServiceBetaOpenshiftKeyCertSecret).
  set (a := svcAnnotations svc).
  destruct enabled; [destruct (decide (a !! key = Some secretName)) as [Hk|Hk]
                    | destruct (decide (is_Some (a !! key))) as [Hk|Hk]];
    cbn [fst snd];
    change (svcAnnotations (svcSetAnnotations svc (Some ?m))) with m.
  - split; [discriminate | congruence].
  - split; [intros _ Heq | done].
    apply Hk. rewrite <- Heq. apply lookup_insert_eq.
  - split; [intros _ Heq | done].
    rewrite <- Heq, lookup_delete_eq in Hk. by destruct Hk.
  - split; [discriminate | congruence].
Qed.

End MoreAutoTLS.

(** ** The v1alpha1 API and its services *)

Section V1alpha1Properties.

Lemma EnsureAutoTLSAnnotation_openshift imports cr svc :
  V1alpha1.RepoAutoTLS cr = "openshift" ->
  V1alpha1.EnsureAutoTLSAnnotation imports cr svc =
  let key := "service.beta.openshift.io/serving-cert-secret-name" in
  let secret := V1alpha1.ArgoCDRepoServerTLSSecretName imports in
  let a := svcAnnotations svc in
  if decide (a !! key = Some secret) then (false, svcSetAnnotations svc (Some a))
  else (true, svcSetAnnotations svc (Some (<[key := secret]> a))).
Proof.
  intros Ho. unfold V1alpha1.EnsureAutoTLSAnnotation. rewrite Ho.
  cbn [negb String.eqb Ascii.eqb Bool.eqb]. cbn zeta.
  set (key := "service.beta.openshift.io/serving-cert-secret-name").
  set (secret := V1alpha1.ArgoCDRepoServerTLSSecretName imports).
  destruct svc as [[n ns l [a|] o d] sp];
    unfold svcSetAnnotations, svcAnnotations; cbn -[key]; rewrite ?lookup_empty.
  - destruct (a !! key) as [v|] eqn:Hv.
    + destruct (String.eqb_spec v secret) as [->|Hne]; cbn [negb].
      * rewrite decide_True by done. reflexivity.
      * rewrite decide_False by congruence. reflexivity.
    + rewrite decide_False by done. reflexivity.
  - rewrite decide_False by done. reflexivity.
Qed.

(** X4. The v1alpha1 [EnsureAutoTLSAnnotation] only ever sets the
    annotation. With [Repo.AutoTLS] equal to "openshift" the service holds
    the key with the repo-server secret afterwards, and the result is false
    exactly when it already did; with any other value the service comes back
    untouched, so that an annotation that is present is never removed. In
    both cases a second call returns false and changes nothing. *)
Theorem EnsureAutoTLSAnnotation_only_sets imports cr svc :
  let key := "service.beta.openshift.io/serving-cert-secret-name" in
  let secret := V1alpha1.ArgoCDRepoServerTLSSecretName imports in
  let r := V1alpha1.EnsureAutoTLSAnnotation imports cr svc in
  (V1alpha1.RepoAutoTLS cr = "openshift" ->
     svcAnnotations r.2 !! key = Some secret
     ∧ (r.1 = false ↔ svcAnnotations svc !! key = Some secret))
  ∧ (V1alpha1.RepoAutoTLS cr ≠ "openshift" -> r = (false, svc))
  ∧ V1alpha1.EnsureAutoTLSAnnotation imports cr r.2 = (false, r.2).
Proof.
  intros key secret r. subst r.
  destruct (String.eqb_spec (V1alpha1.RepoAutoTLS cr) "openshift") as [Ho|Ho].
  - rewrite !(EnsureAutoTLSAnnotation_openshift _ _ _ Ho). cbn zeta.
    fold key. fold secret. set (a := svcAnnotations svc).
    destruct (decide (a !! key = Some secret)) as [Hk|Hk]; cbn [fst snd];
      change (svcAnnotations (svcSetAnnotations svc (Some ?m))) with m.
    + rewrite decide_True by done. split; [|split]; try done.
    + rewrite decide_True by apply lookup_insert_eq.
      split; [|split]; try done. intros _. rewrite lookup_insert_eq.
      split; [done|]. split; [discriminate | done].
  - unfold V1alpha1.EnsureAutoTLSAnnotation.
    apply String.eqb_neq in Ho. rewrite Ho. cbn. split; [|split]; try done.
    intros H. apply String.eqb_eq in H. congruence.
Qed.

(** X5. [IsDeletionFinalizerPresent] is true exactly when the deletion
    finalizer is among the finalizers of the instance. *)
Theorem IsDeletionFinalizerPresent_spec deletionFinalizer finalizers :
  IsDeletionFinalizerPresent deletionFinalizer finalizers = true
  ↔ deletionFinalizer ∈ finalizers.
Proof.
  induction finalizers as [|f rest IH]; cbn.
  - split; [discriminate|]. intros Hin. by apply elem_of_nil in Hin.
  - rewrite elem_of_cons. destruct (String.eqb_spec f deletionFinalizer) as [->|Hne].
    + split; [by left | done].
    + rewrite IH. split; [by right|]. intros [->|Hin]; done.
Qed.

(** X6. Printing a resource tracking method and parsing the result gives the
    method back exactly for the three valid methods (label, annotation,
    annotation+label); the invalid method and every other number print as
    "label" and so parse back as the label method. *)
Theorem ResourceTrackingMethod_print_parse (r : Z) :
  (ParseResourceTrackingMethod (ResourceTrackingMethodString r) = r
   ↔ r = ResourceTrackingMethodLabel ∨ r = ResourceTrackingMethodAnnotation
     ∨ r = ResourceTrackingMethodAnnotationAndLabel)
  ∧ (r ≠ ResourceTrackingMethodAnnotation -> r ≠ ResourceTrackingMethodAnnotationAndLabel ->
     ParseResourceTrackingMethod (ResourceTrackingMethodString r) = ResourceTrackingMethodLabel).
Proof.
  unfold ResourceTrackingMethodString, ResourceTrackingMethodLabel,
    ResourceTrackingMethodAnnotation, ResourceTrackingMethodAnnotationAndLabel.
  destruct (Z.eqb_spec r 0) as [->|H0]; [cbn; split; [split; auto | done]|].
  destruct (Z.eqb_spec r 1) as [->|H1]; [cbn; split; [split; auto | done]|].
  destruct (Z.eqb_spec r 2) as [->|H2]; [cbn; split; [split; auto | done]|].
  cbn. unfold ResourceTrackingMethodLabel. split; [|done].
  split; [intros <-; done | intros [->|[->| ->]]; done].
Qed.

(** X7. Parsing a name and printing the result gives the name back exactly
    for the three method names; the empty name parses as the label method,
    and a name is parsed as the invalid method exactly when it is neither
    empty nor one of the three. *)
Theorem ResourceTrackingMethod_parse_print (name : string) :
  let known := name = stringResourceTrackingMethodLabel
               ∨ name = stringResourceTrackingMethodAnnotation
               ∨ name = stringResourceTrackingMethodAnnotationAndLabel in
  (ResourceTrackingMethodString (ParseResourceTrackingMethod name) = name ↔ known)
  ∧ ParseResourceTrackingMethod "" = ResourceTrackingMethodLabel
  ∧ (ParseResourceTrackingMethod name = ResourceTrackingMethodInvalid
     ↔ name ≠ "" ∧ ¬ known).
Proof.
  cbn zeta. unfold ParseResourceTrackingMethod, stringResourceTrackingMethodLabel,
    stringResourceTrackingMethodAnnotation, stringResourceTrackingMethodAnnotationAndLabel.
  destruct (String.eqb_spec name "label") as [->|Hl].
  { cbn. split; [split; auto|]. split; [done|]. split; [discriminate|]. intros [_ H]. tauto. }
  destruct (String.eqb_spec name "") as [->|He].
  { cbn. split; [|split; [done|]].
    - split; [discriminate|]. intros [H|[H|H]]; discriminate.
    - split; [discriminate|]. intros [H _]. done. }
  destruct (String.eqb_spec name "annotation") as [->|Ha].
  { cbn. split; [split; auto|]. split; [done|]. split; [discriminate|]. intros [_ H]. tauto. }
  destruct (String.eqb_spec name "annotation+label") as [->|Hal].
  { cbn. split; [split; auto|]. split; [done|]. split; [discriminate|]. intros [_ H]. tauto. }
  cbn. split; [|split; [done|]].
  - split; [intros <-; done | intros [H|[H|H]]; done].
  - split; [intros _; split; [done|]; intros [H|[H|H]]; done | done].
Qed.

End V1alpha1Properties.

(** ** The store's operations as equations *)

(** Membership in a list of calls given by appends and conses. *)
Ltac calls_cases Hc :=
  repeat (apply elem_of_app in Hc as [Hc|Hc]);
  repeat (apply elem_of_cons in Hc as [Hc|Hc]);
  try (by apply elem_of_nil in Hc); auto.

Section ClientEquations.

Implicit Types (env : Env) (k : ObjectKey) (o : Object) (w : World).

Lemma IsObjectFound_eq k w :
  IsObjectFound k w = (objects w !! k, addCall w (Get, k)).
Proof. reflexivity. Qed.

Lemma ClientGet_eq env k w :
  ClientGet env k w =
  (match fault env Get k with
   | Some err => inr err
   | None => match objects w !! k with
             | Some o => inl o
             | None => inr (StatusError StatusReasonNotFound)
             end
   end, addCall w (Get, k)).
Proof.
  unfold ClientGet. run. destruct (fault env Get k); [done|].
  cbn. by destruct (objects w !! k).
Qed.

Lemma ClientCreate_eq env k o w :
  ClientCreate env k o w =
  match fault env Create k with
  | Some err => (Some err, addCall w (Create, k))
  | None => match objects w !! k with
            | Some _ => (Some (StatusError StatusReasonAlreadyExists), addCall w (Create, k))
            | None => (None, addWrite w (Create, k) (<[k := o]> (objects w)))
            end
  end.
Proof.
  unfold ClientCreate. run. destruct (fault env Create k); [done|].
  cbn. by destruct (objects w !! k).
Qed.

Lemma ClientUpdate_eq env k o w :
  ClientUpdate env k o w =
  match fault env Update k with
  | Some err => (Some err, addCall w (Update, k))
  | None => match objects w !! k with
            | Some _ => (None, addWrite w (Update, k) (<[k := o]> (objects w)))
            | None => (Some (StatusError StatusReasonNotFound), addCall w (Update, k))
            end
  end.
Proof.
  unfold ClientUpdate. run. destruct (fault env Update k); [done|].
  cbn. by destruct (objects w !! k).
Qed.

Lemma ClientDelete_eq env k w :
  ClientDelete env k w =
  match fault env Delete k with
  | Some err => (Some err, addCall w (Delete, k))
  | None => match objects w !! k with
            | Some _ => (None, addWrite w (Delete, k) (delete k (objects w)))
            | None => (Some (StatusError StatusReasonNotFound), addCall w (Delete, k))
            end
  end.
Proof.
  unfold ClientDelete. run. destruct (fault env Delete k); [done|].
  cbn. by destruct (objects w !! k).
Qed.


Lemma ClientUpdate_calls env k o w :
  calls (ClientUpdate env k o w).2 = calls w ++ [(Update, k)].
Proof. rewrite ClientUpdate_eq. by repeat case_match. Qed.

Lemma ClientDelete_calls env k w :
  calls (ClientDelete env k w).2 = calls w ++ [(Delete, k)].
Proof. rewrite ClientDelete_eq. by repeat case_match. Qed.

Lemma bind_eq {A B} (m : M A) (f : A -> M B) w :
  bind m f w = f (m w).1 (m w).2.
Proof. unfold bind. by destruct (m w). Qed.

Lemma toService_ofService (svc : Service) : toService (ofService svc) = svc.
Proof. by destruct svc. Qed.

Lemma wellKeyed_insert objs k o :
  wellKeyed objs -> k.1.2 = Namespace (objMeta o) -> k.2 = Name (objMeta o) ->
  wellKeyed (<[k := o]> objs).
Proof. intros Hwf H1 H2. by apply map_Forall_insert_2. Qed.

Lemma wellKeyed_delete objs k : wellKeyed objs -> wellKeyed (delete k objs).
Proof. intros Hwf. by apply map_Forall_delete. Qed.

End ClientEquations.

(** ** The service reconcilers, pass after pass *)

(** The first step of every service reconciler: the lookup of the service
    under its key. *)
Ltac lookup_step key :=
  rewrite bind_eq, IsObjectFound_eq; cbn [fst snd];
  change (KService, Namespace (crMeta _), _) with key.

Section ServicePasses.

Implicit Types (env : Env) (cr : ArgoCD) (w : World).

Lemma reconcileMetricsService_present env cr w :
  is_Some (objects w !! suffixKey cr "metrics") ->
  reconcileMetricsService env cr w = (None, addCall w (Get, suffixKey cr "metrics")).
Proof.
  intros [live Hlive]. unfold reconcileMetricsService.
  lookup_step (suffixKey cr "metrics"). by rewrite Hlive.
Qed.


Lemma reconcileServerMetricsService_present env cr w :
  is_Some (objects w !! suffixKey cr "server-metrics") ->
  reconcileServerMetricsService env cr w
  = (None, addCall w (Get, suffixKey cr "server-metrics")).
Proof.
  intros [live Hlive]. unfold reconcileServerMetricsService.
  lookup_step (suffixKey cr "server-metrics"). by rewrite Hlive.
Qed.


(** A create that returns nil leaves the object in the store. *)
Lemma ClientCreate_nil env k o w w' :
  ClientCreate env k o w = (None, w') ->
  w' = addWrite w (Create, k) (<[k := o]> (objects w)) ∧ objects w !! k = None.
Proof.
  rewrite ClientCreate_eq. destruct (fault env Create k); [intros [=]|].
  destruct (objects w !! k); intros [=]. by subst.
Qed.

(** A delete that returns nil has removed the object. *)
Lemma ClientDelete_nil env k w w' :
  ClientDelete env k w = (None, w') ->
  w' = addWrite w (Delete, k) (delete k (objects w)).
Proof.
  rewrite ClientDelete_eq. destruct (fault env Delete k); [intros [=]|].
  destruct (objects w !! k); intros [=]. by subst.
Qed.



Lemma reconcileGrafanaService_present env cr w :
  wellKeyed (objects w) ->
  is_Some (objects w !! suffixKey cr "grafana") ->
  reconcileGrafanaService env cr w =
  if GrafanaEnabled (crSpec cr) then (None, addCall w (Get, suffixKey cr "grafana"))
  else ClientDelete env (suffixKey cr "grafana") (addCall w (Get, suffixKey cr "grafana")).
Proof.
  intros Hwf [live Hlive]. unfold reconcileGrafanaService.
  lookup_step (suffixKey cr "grafana"). rewrite Hlive.
  rewrite (wellKeyed_service _ _ _ _ Hwf Hlive).
  by destruct (GrafanaEnabled (crSpec cr)).
Qed.

Lemma reconcileGrafanaService_absent env cr w :
  objects w !! suffixKey cr "grafana" = None ->
  ∃ o msg, reconcileGrafanaService env cr w =
    if GrafanaEnabled (crSpec cr) then
      if bool_decide ("ArgoCD" ∈ Scheme env)
      then ClientCreate env (suffixKey cr "grafana") o
             (addLog (addCall w (Get, suffixKey cr "grafana")) (LogInfo msg))
      else (Some (ErrorString "no kind is registered for the type ArgoCD"),
            addCall w (Get, suffixKey cr "grafana"))
    else (None, addCall w (Get, suffixKey cr "grafana")).
Proof.
  intros Habs. unfold reconcileGrafanaService.
  lookup_step (suffixKey cr "grafana"). rewrite Habs.
  rewrite SetControllerReference_same_namespace by reflexivity.
  do 2 eexists.
  destruct (GrafanaEnabled (crSpec cr)); [|reflexivity].
  destruct (bool_decide _); reflexivity.
Qed.

(** X9. The Grafana service reconciler is idempotent: after a pass that
    returned nil, on a store whose objects sit under their own names, the
    next pass with the same instance issues the lookup alone and returns
    nil, whatever the pass before had to do. *)
Theorem reconcileGrafanaService_idempotent env cr w :
  let key := suffixKey cr "grafana" in
  let p := reconcileGrafanaService env cr w in
  wellKeyed (objects w) ->
  p.1 = None ->
  reconcileGrafanaService env cr p.2 = (None, addCall p.2 (Get, key)).
Proof.
  intros key p Hwf. subst p.
  destruct (objects w !! key) as [live|] eqn:Hl.
  - rewrite (reconcileGrafanaService_present env cr w Hwf) by eauto.
    destruct (GrafanaEnabled (crSpec cr)) eqn:Hen.
    + intros _. rewrite reconcileGrafanaService_present by eauto. by rewrite Hen.
    + destruct (ClientDelete _ _ _) as [r w1] eqn:Hd. cbn [fst snd]. intros ->.
      apply ClientDelete_nil in Hd as ->.
      match goal with
      | |- reconcileGrafanaService _ _ ?w0 = _ =>
          destruct (reconcileGrafanaService_absent env cr w0) as (o & msg & ->);
            [apply lookup_delete_eq|]
      end.
      by rewrite Hen.
  - destruct (reconcileGrafanaService_absent env cr w Hl) as (o & msg & ->).
    destruct (GrafanaEnabled (crSpec cr)) eqn:Hen.
    + destruct (bool_decide _); [|discriminate].
      destruct (ClientCreate _ _ _ _) as [r w1] eqn:Hc. cbn [fst snd]. intros ->.
      apply ClientCreate_nil in Hc as [-> _].
      unfold reconcileGrafanaService. lookup_step key.
      cbn [objects addWrite]. rewrite lookup_insert_eq. by rewrite Hen.
    + intros _. cbn [fst snd].
      match goal with
      | |- reconcileGrafanaService _ _ ?w0 = _ =>
          destruct (reconcileGrafanaService_absent env cr w0 Hl) as (o' & msg' & ->)
      end.
      by rewrite Hen.
Qed.

Lemma reconcileRedisHAMasterService_present env cr w :
  wellKeyed (objects w) ->
  is_Some (objects w !! suffixKey cr "redis-ha") ->
  reconcileRedisHAMasterService env cr w =
  if HAEnabled (crSpec cr) then (None, addCall w (Get, suffixKey cr "redis-ha"))
  else ClientDelete env (suffixKey cr "redis-ha") (addCall w (Get, suffixKey cr "redis-ha")).
Proof.
  intros Hwf [live Hlive]. unfold reconcileRedisHAMasterService.
  lookup_step (suffixKey cr "redis-ha"). rewrite Hlive.
  rewrite (wellKeyed_service _ _ _ _ Hwf Hlive).
  by destruct (HAEnabled (crSpec cr)).
Qed.



End ServicePasses.

(** ** The announce services with HA enabled *)

Section AnnounceEnabled.

Implicit Types (env : Env) (cr : ArgoCD) (w : World).





(** X12. With HA enabled, a pass that finds the announce service of index 0
    stops there: it returns nil after that one lookup, without a write and
    without looking at the other indices, whether their services exist or
    not. *)
Theorem reconcileRedisHAAnnounceServices_stops_when_first_present env cr w :
  let N := ArgoCDDefaultRedisHAReplicas (common env) in
  HAEnabled (crSpec cr) = true ->
  0 < N ->
  is_Some (objects w !! announceKey cr 0) ->
  reconcileRedisHAAnnounceServices env cr w = (None, addCall w (Get, announceKey cr 0)).
Proof.
  intros N Hha HN [live Hlive].
  unfold reconcileRedisHAAnnounceServices. fold N.
  rewrite seqZ_cons by lia. cbn [announceServicesLoop].
  rewrite bind_eq. unfold announceServiceStep.
  lookup_step (announceKey cr 0). by rewrite Hlive, Hha.
Qed.

End AnnounceEnabled.

(** ** A pass over a settled store *)

Section SettledStore.

Implicit Types (env : Env) (cr : ArgoCD) (w : World).

Lemma reconcileGrafanaService_settled env cr w :
  (is_Some (objects w !! suffixKey cr "grafana") ↔ GrafanaEnabled (crSpec cr) = true) ->
  reconcileGrafanaService env cr w = (None, addCall w (Get, suffixKey cr "grafana")).
Proof.
  intros Hiff. unfold reconcileGrafanaService. lookup_step (suffixKey cr "grafana").
  destruct (objects w !! suffixKey cr "grafana") as [live|] eqn:Hl.
  - rewrite (proj1 Hiff) by eauto. done.
  - destruct (GrafanaEnabled (crSpec cr)); [|done].
    destruct (proj2 Hiff eq_refl) as [? [=]].
Qed.

Lemma reconcileRedisHAAnnounceServices_settled env cr w :
  let N := ArgoCDDefaultRedisHAReplicas (common env) in
  (0 < N -> (is_Some (objects w !! announceKey cr 0) ↔ HAEnabled (crSpec cr) = true)) ->
  reconcileRedisHAAnnounceServices env cr w
  = (None, if bool_decide (0 < N) then addCall w (Get, announceKey cr 0) else w).
Proof.
  intros N Hiff. unfold reconcileRedisHAAnnounceServices. fold N.
  destruct (decide (0 < N)) as [HN|HN].
  - rewrite bool_decide_eq_true_2 by done. specialize (Hiff HN).
    rewrite seqZ_cons by lia. cbn [announceServicesLoop].
    rewrite bind_eq. unfold announceServiceStep. lookup_step (announceKey cr 0).
    destruct (objects w !! announceKey cr 0) as [live|] eqn:Hl.
    + rewrite (proj1 Hiff) by eauto. done.
    + destruct (HAEnabled (crSpec cr)); [|done].
      destruct (proj2 Hiff eq_refl) as [? [=]].
  - rewrite bool_decide_eq_false_2 by done.
    by rewrite seqZ_nil by lia.
Qed.

Lemma reconcileRedisHAMasterService_settled env cr w :
  (is_Some (objects w !! suffixKey cr "redis-ha") ↔ HAEnabled (crSpec cr) = true) ->
  reconcileRedisHAMasterService env cr w = (None, addCall w (Get, suffixKey cr "redis-ha")).
Proof.
  intros Hiff. unfold reconcileRedisHAMasterService. lookup_step (suffixKey cr "redis-ha").
  destruct (objects w !! suffixKey cr "redis-ha") as [live|] eqn:Hl.
  - rewrite (proj1 Hiff) by eauto. done.
  - destruct (HAEnabled (crSpec cr)); [|done].
    destruct (proj2 Hiff eq_refl) as [? [=]].
Qed.

Lemma reconcileRedisHAProxyService_settled env cr w :
  (is_Some (objects w !! suffixKey cr "redis-ha-haproxy") ↔ HAEnabled (crSpec cr) = true) ->
  annotationSettled env (ArgoCDRedisServerTLSSecretName (common env))
    (RedisWantsAutoTLS cr) (objects w) (suffixKey cr "redis-ha-haproxy") ->
  reconcileRedisHAProxyService env cr w
  = (None, addCall w (Get, suffixKey cr "redis-ha-haproxy")).
Proof.
  intros Hiff Hann. unfold reconcileRedisHAProxyService.
  lookup_step (suffixKey cr "redis-ha-haproxy").
  destruct (objects w !! suffixKey cr "redis-ha-haproxy") as [live|] eqn:Hl.
  - rewrite (proj1 Hiff) by eauto. cbn [negb].
    specialize (Hann live Hl).
    destruct (ensureAutoTLSAnnotation _ _ _ _) as [changed svc].
    cbn in Hann. by subst.
  - destruct (HAEnabled (crSpec cr)); [|done].
    destruct (proj2 Hiff eq_refl) as [? [=]].
Qed.

Lemma reconcileRedisService_settled env cr w :
  (is_Some (objects w !! suffixKey cr "redis") ↔ HAEnabled (crSpec cr) = false) ->
  annotationSettled env (ArgoCDRedisServerTLSSecretName (common env))
    (RedisWantsAutoTLS cr) (objects w) (suffixKey cr "redis") ->
  reconcileRedisService env cr w = (None, addCall w (Get, suffixKey cr "redis")).
Proof.
  intros Hiff Hann. unfold reconcileRedisService. lookup_step (suffixKey cr "redis").
  destruct (objects w !! suffixKey cr "redis") as [live|] eqn:Hl.
  - rewrite (proj1 Hiff) by eauto.
    specialize (Hann live Hl).
    destruct (ensureAutoTLSAnnotation _ _ _ _) as [changed svc].
    cbn in Hann. by subst.
  - destruct (HAEnabled (crSpec cr)); [done|].
    destruct (proj2 Hiff eq_refl) as [? [=]].
Qed.

Lemma reconcileRepoService_settled env imports (cr : ArgoCDServices) w :
  is_Some (objects w !! suffixKey cr "repo-server") ->
  annotationSettled env (ArgoCDRepoServerTLSSecretName imports)
    (RepoWantsAutoTLS cr) (objects w) (suffixKey cr "repo-server") ->
  reconcileRepoService env imports cr w = (None, addCall w (Get, suffixKey cr "repo-server")).
Proof.
  intros [live Hl] Hann. unfold reconcileRepoService.
  lookup_step (suffixKey cr "repo-server"). rewrite Hl.
  specialize (Hann live Hl).
  destruct (ensureAutoTLSAnnotation _ _ _ _) as [changed svc].
  cbn in Hann. by subst.
Qed.

Lemma reconcileServerService_settled env imports (cr : ArgoCDServices) w :
  is_Some (objects w !! suffixKey cr "server") ->
  annotationSettled env (ArgoCDServerTLSSecretName imports)
    (ServerWantsAutoTLS cr) (objects w) (suffixKey cr "server") ->
  reconcileServerService env imports cr w = (None, addCall w (Get, suffixKey cr "server")).
Proof.
  intros [live Hl] Hann. unfold reconcileServerService.
  lookup_step (suffixKey cr "server"). rewrite Hl.
  specialize (Hann live Hl).
  destruct (ensureAutoTLSAnnotation _ _ _ _) as [changed svc].
  cbn in Hann. by subst.
Qed.

Lemma reconcileRedisHAServices_settled env cr w :
  let N := ArgoCDDefaultRedisHAReplicas (common env) in
  (0 < N -> (is_Some (objects w !! announceKey cr 0) ↔ HAEnabled (crSpec cr) = true)) ->
  (is_Some (objects w !! suffixKey cr "redis-ha") ↔ HAEnabled (crSpec cr) = true) ->
  (is_Some (objects w !! suffixKey cr "redis-ha-haproxy") ↔ HAEnabled (crSpec cr) = true) ->
  annotationSettled env (ArgoCDRedisServerTLSSecretName (common env))
    (RedisWantsAutoTLS cr) (objects w) (suffixKey cr "redis-ha-haproxy") ->
  ∃ w', reconcileRedisHAServices env cr w = (None, w')
        ∧ objects w' = objects w ∧ logs w' = logs w
        ∧ ∀ c, c ∈ calls w' -> c ∈ calls w ∨ c.1 = Get.
Proof.
  intros N Ha Hm Hp Hann. unfold reconcileRedisHAServices.
  rewrite bind_eq, (reconcileRedisHAAnnounceServices_settled env cr w Ha). cbn [fst snd].
  fold N. set (w1 := if bool_decide (0 < N) then _ else w).
  assert (H1 : objects w1 = objects w ∧ logs w1 = logs w
               ∧ ∀ c, c ∈ calls w1 -> c ∈ calls w ∨ c.1 = Get).
  { subst w1. destruct (bool_decide _); cbn; (split; [done|]; split; [done|]);
      intros c Hc; calls_cases Hc. subst. by right. }
  destruct H1 as (Ho1 & Hl1 & Hc1).
  rewrite bind_eq, reconcileRedisHAMasterService_settled by (by rewrite Ho1).
  cbn [fst snd].
  rewrite bind_eq, reconcileRedisHAProxyService_settled by (cbn; by rewrite Ho1).
  cbn [fst snd]. eexists. split; [reflexivity|]. cbn.
  split; [done|]. split; [done|].
  intros c Hc. calls_cases Hc; subst; by right.
Qed.

(** X16. A pass of [reconcileServices] over a settled store is a no-op: it
    returns nil, leaves every object of the store as it is, and issues
    nothing but lookups after the Dex reconciler has run, and this whether
    the Dex reconciler returns nil or an error, which is logged and not
    returned. The Dex reconciler is any reconciler that leaves the store as
    it found it. *)
Theorem reconcileServices_settled env imports
    (reconcileDexService : ArgoCD -> M (option error)) (cr : ArgoCDServices) w :
  let d := reconcileDexService cr w in
  let p := reconcileServices env imports reconcileDexService cr w in
  settled env imports cr (objects w) ->
  objects d.2 = objects w ->
  p.1 = None
  ∧ objects p.2 = objects w
  ∧ (∀ c, c ∈ calls p.2 -> c ∈ calls d.2 ∨ c.1 = Get)
  ∧ logs p.2 = logs d.2 ++ match d.1 with
                           | Some err => [LogError err "error reconciling dex service"]
                           | None => []
                           end.
Proof.
  intros d p (Hg & Hm & Ha & Hma & Hp & Hpa & Hr & Hra & Hrepo & Hrepoa & Hsm & Hs & Hsa) Hd.
  subst p. unfold reconcileServices. rewrite bind_eq. fold d.
  destruct d as [dr wd]. cbn [fst snd] in *.
  rewrite bind_eq.
  set (w0 := (match dr with
              | Some err => logEntry (LogError err "error reconciling dex service")
              | None => ret tt
              end wd).2).
  assert (Hw0 : objects w0 = objects w ∧ calls w0 = calls wd
                ∧ logs w0 = logs wd ++ match dr with
                                       | Some err =>
                                           [LogError err "error reconciling dex service"]
                                       | None => []
                                       end).
  { subst w0. destruct dr; cbn; [done|]. by rewrite app_nil_r. }
  destruct Hw0 as (Ho & Hc & Hl). clearbody w0.
  rewrite bind_eq, reconcileGrafanaService_settled by (by rewrite Ho). cbn [fst snd].
  rewrite bind_eq, reconcileMetricsService_present by (cbn; by rewrite Ho). cbn [fst snd].
  rewrite bind_eq.
  edestruct (reconcileRedisHAServices_settled env cr) as (w1 & -> & Ho1 & Hl1 & Hc1);
    [cbn; rewrite Ho; eassumption.. |].
  cbn [fst snd].
  rewrite bind_eq, reconcileRedisService_settled by (by rewrite Ho1; cbn; rewrite Ho).
  cbn [fst snd].
  rewrite bind_eq, (reconcileRepoService_settled env imports cr)
    by (cbn; by rewrite Ho1; cbn; rewrite Ho).
  cbn [fst snd].
  rewrite bind_eq, reconcileServerMetricsService_present
    by (cbn; by rewrite Ho1; cbn; rewrite Ho).
  cbn [fst snd].
  rewrite bind_eq, (reconcileServerService_settled env imports cr)
    by (cbn; by rewrite Ho1; cbn; rewrite Ho).
  cbn. split; [done|]. split; [by rewrite Ho1|]. split; [|by rewrite Hl1].
  intros c Hin. calls_cases Hin; subst; try by right.
  apply Hc1 in Hin as [Hin| ->]; [|by right].
  cbn in Hin. calls_cases Hin; subst; try by right.
  left. by rewrite <- Hc.
Qed.

End SettledStore.

(** ** The annotated services, pass after pass *)

Section AnnotatedServices.

Implicit Types (env : Env) (cr : ArgoCD) (w : World) (svc : Service).

Lemma ensureAutoTLSAnnotation_key routeAPI svc secretName enabled :
  serviceKey (ensureAutoTLSAnnotation routeAPI svc secretName enabled).2 = serviceKey svc.
Proof.
  destruct routeAPI; [|reflexivity].
  rewrite ensureAutoTLSAnnotation_route. cbn zeta. by repeat case_match.
Qed.

(** A service that carries the annotations which [ensureAutoTLSAnnotation]
    has left is in the desired state: a further call finds nothing to
    change. *)
Lemma ensureAutoTLSAnnotation_settles routeAPI svc svc' secretName enabled :
  Annotations (svcMeta svc')
  = Annotations (svcMeta (ensureAutoTLSAnnotation routeAPI svc secretName enabled).2) ->
  (ensureAutoTLSAnnotation routeAPI svc' secretName enabled).1 = false
  ∧ (routeAPI = true ->
     svcAnnotations svc' !! ServiceBetaOpenshiftKeyCertSecret
     = if enabled then Some secretName else None).
Proof.
  destruct routeAPI; [|by split].
  intros Hann.
  assert (Ha : svcAnnotations svc'
               = svcAnnotations (ensureAutoTLSAnnotation true svc secretName enabled).2).
  { unfold svcAnnotations. by rewrite Hann. }
  clear Hann. revert Ha. rewrite !ensureAutoTLSAnnotation_route. cbn zeta.
  set (key := ServiceBetaOpenshiftKeyCertSecret).
  set (a := svcAnnotations svc).
  destruct enabled; [destruct (decide (a !! key = Some secretName)) as [Hk|Hk]
                    | destruct (decide (is_Some (a !! key))) as [Hk|Hk]];
    cbn [snd]; change (svcAnnotations (svcSetAnnotations svc (Some ?m))) with m;
    intros ->.
  - rewrite decide_True by done. by split.
  - rewrite decide_True by apply lookup_insert_eq. split; [done|].
    intros _. apply lookup_insert_eq.
  - rewrite decide_False by (rewrite lookup_delete_eq; intros [? ?]; discriminate).
    split; [done|]. intros _. apply lookup_delete_eq.
  - rewrite decide_False by done. split; [done|]. intros _.
    by apply eq_None_not_Some.
Qed.

Lemma reconcileRedisHAProxyService_present env cr w live :
  wellKeyed (objects w) ->
  objects w !! suffixKey cr "redis-ha-haproxy" = Some live ->
  HAEnabled (crSpec cr) = true ->
  reconcileRedisHAProxyService env cr w =
  let key := suffixKey cr "redis-ha-haproxy" in
  let e := ensureAutoTLSAnnotation (routeAPIFound env) (toService live)
             (ArgoCDRedisServerTLSSecretName (common env)) (RedisWantsAutoTLS cr) in
  if e.1 then ClientUpdate env key (ofService e.2) (addCall w (Get, key))
  else (None, addCall w (Get, key)).
Proof.
  intros Hwf Hlive Hha. unfold reconcileRedisHAProxyService.
  lookup_step (suffixKey cr "redis-ha-haproxy"). rewrite Hlive, Hha. cbn [negb]. cbn zeta.
  pose proof (ensureAutoTLSAnnotation_key (routeAPIFound env) (toService live)
                (ArgoCDRedisServerTLSSecretName (common env)) (RedisWantsAutoTLS cr)) as Hk.
  rewrite (wellKeyed_service _ _ _ _ Hwf Hlive) in Hk.
  destruct (ensureAutoTLSAnnotation _ _ _ _) as [changed svc]. cbn [fst snd] in *.
  rewrite Hk. by destruct changed.
Qed.

(** X13. Self-healing of the auto-TLS annotation on the Redis HA proxy
    service. With HA enabled and the service in the store, a pass issues one
    update exactly when the annotation of the live service differs from the
    wanted one, and no write otherwise; the store then holds the service as
    [ensureAutoTLSAnnotation] left it, and the next pass issues the lookup
    alone. *)
Theorem reconcileRedisHAProxyService_self_heals env cr w live :
  let key := suffixKey cr "redis-ha-haproxy" in
  let e := ensureAutoTLSAnnotation (routeAPIFound env) (toService live)
             (ArgoCDRedisServerTLSSecretName (common env)) (RedisWantsAutoTLS cr) in
  let p1 := reconcileRedisHAProxyService env cr w in
  let p2 := reconcileRedisHAProxyService env cr p1.2 in
  wellKeyed (objects w) ->
  objects w !! key = Some live ->
  HAEnabled (crSpec cr) = true ->
  fault env Update key = None ->
  p1.1 = None
  ∧ calls p1.2 = calls w ++ (Get, key) :: (if e.1 then [(Update, key)] else [])
  ∧ objects p1.2 !! key = Some (if e.1 then ofService e.2 else live)
  ∧ p2 = (None, addCall p1.2 (Get, key)).
Proof.
  intros key e p1 p2 Hwf Hlive Hha Hfu. subst p2 p1.
  rewrite (reconcileRedisHAProxyService_present env cr w live Hwf Hlive Hha).
  cbn zeta. fold e. subst key.
  destruct (e.1) eqn:Hchanged.
  - rewrite ClientUpdate_eq, Hfu. cbn [objects addCall]. rewrite Hlive. cbn [fst snd].
    split; [done|]. split; [cbn; by rewrite <- app_assoc|].
    split; [cbn; apply lookup_insert_eq|].
    apply reconcileRedisHAProxyService_settled.
    + cbn. rewrite lookup_insert_eq. split; [done | eauto].
    + intros live' Hl'. cbn in Hl'. rewrite lookup_insert_eq in Hl'.
      injection Hl' as <-. rewrite toService_ofService.
      by apply (ensureAutoTLSAnnotation_settles _ (toService live)).
  - cbn [fst snd]. split; [done|]. split; [done|]. split; [done|].
    apply reconcileRedisHAProxyService_settled.
    + cbn. rewrite Hlive. split; [done | eauto].
    + intros live' Hl'. cbn in Hl'. rewrite Hlive in Hl'. by injection Hl' as <-.
Qed.








End AnnotatedServices.

(** ** The repo and server services *)

Section RepoAndServer.

Implicit Types (env : Env) (imports : ServiceImports) (cr : ArgoCDServices) (w : World).

Lemma reconcileRepoService_present env imports cr w live :
  wellKeyed (objects w) ->
  objects w !! suffixKey cr "repo-server" = Some live ->
  reconcileRepoService env imports cr w =
  let key := suffixKey cr "repo-server" in
  let e := ensureAutoTLSAnnotation (routeAPIFound env) (toService live)
             (ArgoCDRepoServerTLSSecretName imports) (RepoWantsAutoTLS cr) in
  if e.1 then ClientUpdate env key (ofService e.2) (addCall w (Get, key))
  else (None, addCall w (Get, key)).
Proof.
  intros Hwf Hlive. unfold reconcileRepoService.
  lookup_step (suffixKey cr "repo-server"). rewrite Hlive. cbn zeta.
  pose proof (ensureAutoTLSAnnotation_key (routeAPIFound env) (toService live)
                (ArgoCDRepoServerTLSSecretName imports) (RepoWantsAutoTLS cr)) as Hk.
  rewrite (wellKeyed_service _ _ _ _ Hwf Hlive) in Hk.
  destruct (ensureAutoTLSAnnotation _ _ _ _) as [changed svc]. cbn [fst snd] in *.
  rewrite Hk. by destruct changed.
Qed.

Lemma reconcileRepoService_absent env imports cr w :
  objects w !! suffixKey cr "repo-server" = None ->
  "ArgoCD" ∈ Scheme env ->
  ∃ svc,
    Annotations (svcMeta svc)
    = Annotations (svcMeta (ensureAutoTLSAnnotation (routeAPIFound env)
                              (newServiceWithSuffix env "repo-server" "repo-server" cr)
                              (ArgoCDRepoServerTLSSecretName imports)
                              (RepoWantsAutoTLS cr)).2)
    ∧ reconcileRepoService env imports cr w
      = ClientCreate env (suffixKey cr "repo-server") (ofService svc)
          (addCall w (Get, suffixKey cr "repo-server")).
Proof.
  intros Habs Hscheme. unfold reconcileRepoService.
  lookup_step (suffixKey cr "repo-server"). rewrite Habs.
  pose proof (ensureAutoTLSAnnotation_key (routeAPIFound env)
                (newServiceWithSuffix env "repo-server" "repo-server" cr)
                (ArgoCDRepoServerTLSSecretName imports) (RepoWantsAutoTLS cr)) as Hk.
  destruct (ensureAutoTLSAnnotation _ _ _ _) as [changed svc]. cbn [fst snd] in *.
  unfold serviceKey in Hk. injection Hk as Hns Hname.
  rewrite SetControllerReference_same_namespace by (cbn; exact Hns).
  rewrite bool_decide_eq_true_2 by done.
  eexists. split; [|f_equal; unfold serviceKey; cbn; by rewrite Hns, Hname].
  reflexivity.
Qed.

(** X17. The repo service converges in one pass. Where the scheme knows the
    ArgoCD kind and the API server answers the write, a pass issues exactly
    one write if the service is absent (a create) or carries the auto-TLS
    annotation otherwise than wanted (an update), and none if it is present
    and as wanted; it returns nil, and the next pass issues the lookup
    alone. *)
Theorem reconcileRepoService_converges env imports cr w :
  let key := suffixKey cr "repo-server" in
  let p1 := reconcileRepoService env imports cr w in
  let p2 := reconcileRepoService env imports cr p1.2 in
  wellKeyed (objects w) ->
  "ArgoCD" ∈ Scheme env ->
  fault env Create key = None ->
  fault env Update key = None ->
  p1.1 = None
  ∧ calls p1.2
    = calls w ++ (Get, key) ::
        match objects w !! key with
        | None => [(Create, key)]
        | Some live =>
            if (ensureAutoTLSAnnotation (routeAPIFound env) (toService live)
                  (ArgoCDRepoServerTLSSecretName imports) (RepoWantsAutoTLS cr)).1
            then [(Update, key)] else []
        end
  ∧ p2 = (None, addCall p1.2 (Get, key)).
Proof.
  intros key p1 p2 Hwf Hscheme Hfc Hfu. subst p2 p1 key.
  destruct (objects w !! suffixKey cr "repo-server") as [live|] eqn:Hlive.
  - rewrite (reconcileRepoService_present env imports cr w live Hwf Hlive). cbn zeta.
    set (e := ensureAutoTLSAnnotation _ _ _ _).
    destruct (e.1) eqn:Hchanged.
    + rewrite ClientUpdate_eq, Hfu. cbn [objects addCall]. rewrite Hlive. cbn [fst snd].
      split; [done|]. split; [cbn; by rewrite <- app_assoc|].
      apply reconcileRepoService_settled.
      * cbn. rewrite lookup_insert_eq. eauto.
      * intros live' Hl'. cbn in Hl'. rewrite lookup_insert_eq in Hl'.
        injection Hl' as <-. rewrite toService_ofService.
        by apply (ensureAutoTLSAnnotation_settles _ (toService live)).
    + cbn [fst snd]. split; [done|]. split; [done|].
      apply reconcileRepoService_settled.
      * cbn. rewrite Hlive. eauto.
      * intros live' Hl'. cbn in Hl'. rewrite Hlive in Hl'. by injection Hl' as <-.
  - destruct (reconcileRepoService_absent env imports cr w Hlive Hscheme)
      as (svc & Hann & ->).
    rewrite ClientCreate_eq, Hfc. cbn [objects addCall]. rewrite Hlive. cbn [fst snd].
    apply ensureAutoTLSAnnotation_settles in Hann as [Hflag _].
    split; [done|]. split; [cbn; by rewrite <- app_assoc|].
    apply reconcileRepoService_settled.
    + cbn. rewrite lookup_insert_eq. eauto.
    + intros live' Hl'. cbn in Hl'. rewrite lookup_insert_eq in Hl'.
      injection Hl' as <-. by rewrite toService_ofService.
Qed.




End RepoAndServer.

(** ** The config maps, continued *)

Section MoreConfigMaps.

Implicit Types (env : Env) (rr : RedisReconciler) (w : World).

(** The pass of [reconcileHAConfigMap] up to the lookup of the config map,
    with the builder succeeding and the namespace found and live. *)
Lemma reconcileHAConfigMap_live env rr w nsObj :
  requestError rr = None ->
  fault env Get (namespaceKey rr) = None ->
  objects w !! namespaceKey rr = Some nsObj ->
  DeletionTimestamp (objMeta nsObj) = None ->
  fault env Get (haConfigMapKey env rr) = None ->
  let w1 := addCall (addCall w (Get, namespaceKey rr)) (Get, haConfigMapKey env rr) in
  match objects w !! haConfigMapKey env rr with
  | Some _ => reconcileHAConfigMap env rr w = (None, w1)
  | None =>
      ∃ lg,
        match fault env Create (haConfigMapKey env rr) with
        | Some err =>
            reconcileHAConfigMap env rr w
            = (Some (Wrap err ("reconcileHAConfigMap: failed to create configMap "
                               +:+ ArgoCDRedisHAConfigMapName (common env)
                               +:+ " in namespace "
                               +:+ Namespace (crMeta (Instance rr)))),
               {| objects := objects w;
                  calls := calls w1 ++ [(Create, haConfigMapKey env rr)];
                  logs := logs w ++ lg |})
        | None =>
            ∃ o,
              objPayload o = ConfigMapPayload
                               {[ haproxyCfgKey := HAProxyConfig rr;
                                  haproxyScriptKey := HAProxyScript rr;
                                  initScriptKey := InitScript rr;
                                  redisConfKey := Conf rr;
                                  sentinelConfKey := SentinelConf rr ]}
              ∧ Labels (objMeta o) = resourceLabels rr
              ∧ reconcileHAConfigMap env rr w
                = (None,
                   {| objects := <[haConfigMapKey env rr := o]> (objects w);
                      calls := calls w1 ++ [(Create, haConfigMapKey env rr)];
                      logs := logs w ++ lg
                              ++ [LogInfo "reconcileHAConfigMap: configMap created"] |})
        end
  end.
Proof.
  intros Hreq Hfns Hns Hdel Hfget. cbn zeta.
  unfold reconcileHAConfigMap, RequestConfigMap. rewrite Hreq.
  unfold GetNamespace, ClientGet. run.
  change (KNamespace, "", Namespace (crMeta (Instance rr))) with (namespaceKey rr).
  rewrite Hfns. cbn. rewrite Hns. cbn. rewrite Hdel.
  rewrite bool_decide_eq_false_2 by (intros [? ?]; discriminate). cbn.
  unfold GetConfigMap, ClientGet. run.
  change (KConfigMap, Namespace (crMeta (Instance rr)), ArgoCDRedisHAConfigMapName (common env))
    with (haConfigMapKey env rr).
  rewrite Hfget. cbn.
  destruct (objects w !! haConfigMapKey env rr) as [old|] eqn:Hold; cbn.
  { unfold addCall. cbn. by rewrite <- !app_assoc. }
  rewrite SetControllerReference_same_namespace by reflexivity.
  destruct (bool_decide _); cbn;
    unfold CreateConfigMap, ClientCreate; run;
    change (configMapKey _) with (haConfigMapKey env rr);
    (destruct (fault env Create (haConfigMapKey env rr)) as [e|]; cbn;
     rewrite ?Hold; cbn).
  - exists []. by rewrite app_nil_r, <- !app_assoc.
  - exists []. eexists. split; [|split].
    3: by rewrite <- !app_assoc.
    all: reflexivity.
  - eexists [_]. by rewrite <- !app_assoc.
  - eexists [_]. eexists. split; [|split].
    3: by rewrite <- !app_assoc.
    all: reflexivity.
Qed.

Lemma reconcileHAConfigMap_never_again env rr w nsObj existing :
  requestError rr = None ->
  fault env Get (namespaceKey rr) = None ->
  objects w !! namespaceKey rr = Some nsObj ->
  DeletionTimestamp (objMeta nsObj) = None ->
  fault env Get (haConfigMapKey env rr) = None ->
  objects w !! haConfigMapKey env rr = Some existing ->
  reconcileHAConfigMap env rr w
  = (None, addCall (addCall w (Get, namespaceKey rr)) (Get, haConfigMapKey env rr)).
Proof.
  intros Hreq Hfns Hns Hdel Hfget Hex.
  pose proof (reconcileHAConfigMap_live env rr w nsObj Hreq Hfns Hns Hdel Hfget) as H.
  cbn zeta in H. by rewrite Hex in H.
Qed.

(** X19. [reconcileHAConfigMap] never updates: with the namespace live and
    the config map in the store, a pass issues its two lookups and nothing
    else and returns nil, whatever the stored config map holds; data that
    differs from the desired data stays as it is. *)
Theorem reconcileHAConfigMap_never_updates env rr w nsObj existing :
  requestError rr = None ->
  fault env Get (namespaceKey rr) = None ->
  objects w !! namespaceKey rr = Some nsObj ->
  DeletionTimestamp (objMeta nsObj) = None ->
  fault env Get (haConfigMapKey env rr) = None ->
  objects w !! haConfigMapKey env rr = Some existing ->
  reconcileHAConfigMap env rr w
  = (None, addCall (addCall w (Get, namespaceKey rr)) (Get, haConfigMapKey env rr)).
Proof.
  intros Hreq Hfns Hns Hdel Hfget Hex.
  pose proof (reconcileHAConfigMap_live env rr w nsObj Hreq Hfns Hns Hdel Hfget) as H.
  cbn zeta in H. by rewrite Hex in H.
Qed.

(** X20. [reconcileHAConfigMap] gives up before any write when the desired
    config map cannot be built (no store call at all is made then), when the
    namespace cannot be retrieved, and, where the namespace is retrieved and
    is live (no deletion timestamp), when the lookup of the config map fails
    otherwise than with NotFound; each time the error it returns wraps the
    cause, and the store is as it was. A namespace marked for deletion is
    not covered by the third case: the config map is deleted before the
    lookup then. *)
Theorem reconcileHAConfigMap_aborts env rr w :
  let p := reconcileHAConfigMap env rr w in
  (∀ err, requestError rr = Some err ->
     (∃ msg, p.1 = Some (Wrap err msg)) ∧ calls p.2 = calls w ∧ objects p.2 = objects w)
  ∧ (∀ err, requestError rr = None ->
       (GetNamespace env (Namespace (crMeta (Instance rr))) w).1 = inr err ->
       (∃ msg, p.1 = Some (Wrap err msg))
       ∧ calls p.2 = calls w ++ [(Get, namespaceKey rr)] ∧ objects p.2 = objects w)
  ∧ (∀ nsObj err, requestError rr = None ->
       fault env Get (namespaceKey rr) = None ->
       objects w !! namespaceKey rr = Some nsObj ->
       DeletionTimestamp (objMeta nsObj) = None ->
       fault env Get (haConfigMapKey env rr) = Some err ->
       IsNotFound err = false ->
       (∃ msg, p.1 = Some (Wrap err msg))
       ∧ calls p.2 = calls w ++ [(Get, namespaceKey rr); (Get, haConfigMapKey env rr)]
       ∧ objects p.2 = objects w).
Proof.
  intros p. subst p. split; [|split].
  - intros err Hreq. unfold reconcileHAConfigMap, RequestConfigMap. rewrite Hreq.
    run. eauto.
  - intros err Hreq. unfold reconcileHAConfigMap, RequestConfigMap. rewrite Hreq.
    rewrite bind_eq. destruct (GetNamespace _ _ _) as [r w1] eqn:Hg. cbn [fst snd].
    intros ->. revert Hg. unfold GetNamespace. rewrite ClientGet_eq.
    intros [= _ <-]. run. eauto.
  - intros nsObj err Hreq Hfns Hns Hdel Hfget Hnf.
    unfold reconcileHAConfigMap, RequestConfigMap. rewrite Hreq.
    unfold GetNamespace, ClientGet. run.
    change (KNamespace, "", Namespace (crMeta (Instance rr))) with (namespaceKey rr).
    rewrite Hfns. cbn. rewrite Hns. cbn. rewrite Hdel.
    rewrite bool_decide_eq_false_2 by (intros [? ?]; discriminate). cbn.
    unfold GetConfigMap, ClientGet. run.
    change (KConfigMap, Namespace (crMeta (Instance rr)),
            ArgoCDRedisHAConfigMapName (common env)) with (haConfigMapKey env rr).
    rewrite Hfget. cbn. rewrite Hnf. cbn.
    split; [eauto|]. split; [by rewrite <- app_assoc | done].
Qed.

(** X21. With the namespace live, [reconcileHAConfigMap] converges in one
    pass: it issues at most one write, the create of an absent config map,
    which then holds the five Redis HA scripts under their keys and the
    labels of the component, and the next pass issues its two lookups and
    nothing else. *)
Theorem reconcileHAConfigMap_converges env rr w nsObj :
  let cmKey := haConfigMapKey env rr in
  let p1 := reconcileHAConfigMap env rr w in
  let p2 := reconcileHAConfigMap env rr p1.2 in
  requestError rr = None ->
  fault env Get (namespaceKey rr) = None ->
  objects w !! namespaceKey rr = Some nsObj ->
  DeletionTimestamp (objMeta nsObj) = None ->
  fault env Get cmKey = None ->
  fault env Create cmKey = None ->
  p1.1 = None
  ∧ calls p1.2 = calls w ++ [(Get, namespaceKey rr); (Get, cmKey)]
                 ++ match objects w !! cmKey with
                    | Some _ => []
                    | None => [(Create, cmKey)]
                    end
  ∧ (objects w !! cmKey = None ->
     ∃ o, objects p1.2 !! cmKey = Some o
          ∧ objPayload o = ConfigMapPayload
                             {[ haproxyCfgKey := HAProxyConfig rr;
                                haproxyScriptKey := HAProxyScript rr;
                                initScriptKey := InitScript rr;
                                redisConfKey := Conf rr;
                                sentinelConfKey := SentinelConf rr ]}
          ∧ Labels (objMeta o) = resourceLabels rr)
  ∧ p2 = (None, addCall (addCall p1.2 (Get, namespaceKey rr)) (Get, cmKey)).
Proof.
  intros cmKey p1 p2 Hreq Hfns Hns Hdel Hfget Hfc. subst p2 p1 cmKey.
  pose proof (reconcileHAConfigMap_live env rr w nsObj Hreq Hfns Hns Hdel Hfget) as H.
  cbn zeta in H.
  assert (Hne : haConfigMapKey env rr ≠ namespaceKey rr) by done.
  destruct (objects w !! haConfigMapKey env rr) as [old|] eqn:Hold.
  - rewrite H. cbn [fst snd]. split; [done|].
    split; [cbn; by rewrite <- ?app_assoc|]. split; [done|].
    by apply (reconcileHAConfigMap_never_again env rr _ nsObj old).
  - destruct H as [lg H]. rewrite Hfc in H. destruct H as (o & Hpay & Hlab & ->).
    cbn [fst snd]. split; [done|]. split; [cbn; by rewrite <- !app_assoc|].
    split.
    + intros _. exists o. cbn. by rewrite lookup_insert_eq.
    + apply (reconcileHAConfigMap_never_again env rr _ nsObj o); try done.
      * cbn. by rewrite lookup_insert_ne.
      * cbn. apply lookup_insert_eq.
Qed.

(** X22. [deleteConfigMap] is idempotent. A call that returns nil has either
    removed the config map, which it then logs, or found nothing to remove
    and left store and log alone; a second call returns nil as well, with
    one more delete call and nothing else changed. *)
Theorem deleteConfigMap_idempotent env name namespace w :
  let key : ObjectKey := (KConfigMap, namespace, name) in
  let p1 := deleteConfigMap env name namespace w in
  p1.1 = None ->
  ((is_Some (objects w !! key) ∧ objects p1.2 = delete key (objects w)
    ∧ logs p1.2 = logs w ++ [LogInfo "DeleteConfigMap: configMap deleted"])
   ∨ (objects p1.2 = objects w ∧ logs p1.2 = logs w))
  ∧ deleteConfigMap env name namespace p1.2 = (None, addCall p1.2 (Delete, key)).
Proof.
  intros key p1. subst p1.
  assert (Hrun : ∀ w0, deleteConfigMap env name namespace w0 =
            match fault env Delete key with
            | Some e =>
                (if IsNotFound e then None
                 else Some (Wrap e ("deleteConfigMap: failed to delete configMap "
                                    +:+ name +:+ " in namespace " +:+ namespace)),
                 addCall w0 (Delete, key))
            | None =>
                match objects w0 !! key with
                | Some _ =>
                    (None, addLog (addWrite w0 (Delete, key) (delete key (objects w0)))
                             (LogInfo "DeleteConfigMap: configMap deleted"))
                | None => (None, addCall w0 (Delete, key))
                end
            end).
  { intros w0. unfold deleteConfigMap, DeleteConfigMap.
    rewrite bind_eq, ClientDelete_eq. fold key.
    destruct (fault env Delete key) as [e|]; cbn [fst snd].
    - by destruct (IsNotFound e).
    - by destruct (objects w0 !! key). }
  rewrite !Hrun.
  destruct (fault env Delete key) as [e|] eqn:Hf.
  - cbn [fst snd]. destruct (IsNotFound e) eqn:Hnf; [|discriminate].
    intros _. split; [by right | done].
  - destruct (objects w !! key) as [old|] eqn:Hold; cbn [fst snd]; intros _.
    + cbn [objects addLog addWrite]. rewrite lookup_delete_eq.
      split; [|done]. left. eauto.
    + cbn [objects addCall]. rewrite Hold. split; [by right | done].
Qed.

End MoreConfigMaps.

(** ** The health config map *)

Section HealthConfigMap.

Implicit Types (env : Env) (rr : RedisReconciler) (health : RedisHealth) (w : World).

(** X23. [reconcileHAHealthConfigMap] reports the failure to build the
    desired config map, and the failure to retrieve the namespace, with the
    cause itself as its error, not wrapped, and logs the cause as an error;
    in the first case it makes no store call, in the second none after the
    lookup of the namespace. *)
Theorem reconcileHAHealthConfigMap_reports env rr health w :
  let p := reconcileHAHealthConfigMap env rr health w in
  (∀ err, requestError rr = Some err ->
     p.1 = Some err ∧ calls p.2 = calls w ∧ objects p.2 = objects w
     ∧ logs p.2 = logs w
         ++ [LogError err "reconcileHAHealthConfigMap: failed to request configMap";
             LogInfo "reconcileHAHealthConfigMap: one or more mutations could not be applied"])
  ∧ (∀ err, requestError rr = None ->
       (GetNamespace env (Namespace (crMeta (Instance rr))) w).1 = inr err ->
       p.1 = Some err
       ∧ calls p.2 = calls w ++ [(Get, namespaceKey rr)] ∧ objects p.2 = objects w
       ∧ logs p.2 = logs w
           ++ [LogError err "reconcileHAHealthConfigMap: failed to retrieve namespace"]).
Proof.
  intros p. subst p. split.
  - intros err Hreq. unfold reconcileHAHealthConfigMap, RequestConfigMap. rewrite Hreq.
    run. by rewrite <- app_assoc.
  - intros err Hreq. unfold reconcileHAHealthConfigMap, RequestConfigMap. rewrite Hreq.
    rewrite bind_eq. destruct (GetNamespace _ _ _) as [r w1] eqn:Hg. cbn [fst snd].
    intros ->. revert Hg. unfold GetNamespace. rewrite ClientGet_eq.
    intros [= _ <-]. run. done.
Qed.

(** X24. With the namespace live, [reconcileHAHealthConfigMap] leaves a
    config map that is in the store alone, and creates an absent one with
    the three health scripts under their keys. The created config map has
    the instance as its controller where the scheme knows the ArgoCD kind;
    where it does not, the failure is logged and the config map is created
    without an owner. *)
Theorem reconcileHAHealthConfigMap_creates env rr health w nsObj :
  let key := haHealthConfigMapKey rr health in
  let p := reconcileHAHealthConfigMap env rr health w in
  requestError rr = None ->
  fault env Get (namespaceKey rr) = None ->
  objects w !! namespaceKey rr = Some nsObj ->
  DeletionTimestamp (objMeta nsObj) = None ->
  fault env Get key = None ->
  fault env Create key = None ->
  match objects w !! key with
  | Some _ => p = (None, addCall (addCall w (Get, namespaceKey rr)) (Get, key))
  | None =>
      p.1 = None
      ∧ calls p.2 = calls w ++ [(Get, namespaceKey rr); (Get, key); (Create, key)]
      ∧ ∃ o, objects p.2 = <[key := o]> (objects w)
             ∧ objPayload o = ConfigMapPayload
                                {[ livenessScriptKey := LivenessScript health;
                                   readinessScriptKey := ReadinessScript health;
                                   sentinelLivenessScriptKey :=
                                     SentinelLivenessScript health ]}
             ∧ (if bool_decide ("ArgoCD" ∈ Scheme env)
                then OwnerReferences (objMeta o)
                     = [ {| OwnerKind := "ArgoCD";
                            OwnerName := Name (crMeta (Instance rr));
                            Controller := true |} ]
                     ∧ logs p.2
                       = logs w ++ [LogInfo "reconcileHAHealthConfigMap: configMap created"]
                else OwnerReferences (objMeta o) = []
                     ∧ ∃ err,
                         logs p.2
                         = logs w
                           ++ [LogError err
                                 "reconcileHAHealthConfigMap: failed to set owner reference for configMap";
                               LogInfo "reconcileHAHealthConfigMap: configMap created"])
  end.
Proof.
  intros key p Hreq Hfns Hns Hdel Hfget Hfc. subst p key.
  unfold reconcileHAHealthConfigMap, RequestConfigMap. rewrite Hreq.
  unfold GetNamespace, ClientGet. run.
  change (KNamespace, "", Namespace (crMeta (Instance rr))) with (namespaceKey rr).
  rewrite Hfns. cbn. rewrite Hns. cbn. rewrite Hdel.
  rewrite bool_decide_eq_false_2 by (intros [? ?]; discriminate). cbn.
  unfold GetConfigMap, ClientGet. run.
  change (KConfigMap, Namespace (crMeta (Instance rr)),
          ArgoCDRedisHAHealthConfigMapName health) with (haHealthConfigMapKey rr health).
  rewrite Hfget. cbn.
  destruct (objects w !! haHealthConfigMapKey rr health) as [old|] eqn:Hold; cbn.
  { unfold addCall. cbn. by rewrite <- !app_assoc. }
  rewrite SetControllerReference_same_namespace by reflexivity.
  destruct (bool_decide _); cbn;
    unfold CreateConfigMap, ClientCreate; run;
    change (configMapKey _) with (haHealthConfigMapKey rr health);
    rewrite Hfc; cbn; rewrite Hold; cbn.
  - split; [done|]. split; [by rewrite <- !app_assoc|].
    eexists. split; [reflexivity|]. done.
  - split; [done|]. split; [by rewrite <- !app_assoc|].
    eexists. split; [reflexivity|]. split; [done|]. split; [done|].
    eexists. by rewrite <- !app_assoc.
Qed.

End HealthConfigMap.

(** ** Cluster role bindings, continued *)

Section MoreBindings.

Implicit Types (env : Env) (w : World) (crb : Object).

(** X25. [UpdateClusterRoleBinding] never creates: when the lookup of the
    binding fails, with NotFound or otherwise, it returns that error
    unchanged, issues no update, and leaves the store as it was; when the
    lookup succeeds its result is that of the update call. *)
Theorem UpdateClusterRoleBinding_guarded env crb w :
  let lookup := GetClusterRoleBinding env (Name (objMeta crb)) w in
  let p := UpdateClusterRoleBinding env crb w in
  (∀ err, lookup.1 = inr err ->
     p.1 = Some err
     ∧ calls p.2 = calls w ++ [(Get, (KClusterRoleBinding, "", Name (objMeta crb)))]
     ∧ objects p.2 = objects w)
  ∧ (∀ found, lookup.1 = inl found ->
       p = ClientUpdate env (clusterRoleBindingKey crb) crb lookup.2).
Proof.
  intros lookup p. subst p lookup. unfold UpdateClusterRoleBinding.
  rewrite bind_eq. unfold GetClusterRoleBinding. rewrite ClientGet_eq. cbn [fst snd].
  split.
  - intros err ->. done.
  - intros found ->. rewrite bind_eq.
    by destruct (ClientUpdate _ _ _ _) as [[e|] w1].
Qed.

(** X26. [DeleteClusterRoleBinding] is idempotent: after a call that
    returned nil, on a store whose objects sit under their own names, a
    second call for the same name returns nil too, and it issues the lookup
    alone, no delete. *)
Theorem DeleteClusterRoleBinding_idempotent env name w :
  let key : ObjectKey := (KClusterRoleBinding, "", name) in
  let p1 := DeleteClusterRoleBinding env name w in
  wellKeyed (objects w) ->
  p1.1 = None ->
  DeleteClusterRoleBinding env name p1.2 = (None, addCall p1.2 (Get, key)).
Proof.
  intros key p1 Hwf. subst p1.
  assert (Hrun : ∀ w0, wellKeyed (objects w0) ->
            DeleteClusterRoleBinding env name w0 =
            match fault env Get key with
            | Some e => (if IsNotFound e then None else Some e, addCall w0 (Get, key))
            | None =>
                match objects w0 !! key with
                | Some _ => ClientDelete env key (addCall w0 (Get, key))
                | None => (None, addCall w0 (Get, key))
                end
            end).
  { intros w0 Hwf0. unfold DeleteClusterRoleBinding, GetClusterRoleBinding.
    rewrite bind_eq, ClientGet_eq. fold key. cbn [fst snd].
    destruct (fault env Get key) as [e|].
    - by destruct (IsNotFound e).
    - destruct (objects w0 !! key) as [o|] eqn:Ho; [|done].
      destruct (Hwf0 _ _ Ho) as [H1 H2]. cbn in H1, H2. rewrite <- H1, <- H2.
      fold key. rewrite bind_eq. by destruct (ClientDelete _ _ _) as [[e|] w1]. }
  rewrite (Hrun w Hwf).
  destruct (fault env Get key) as [e|] eqn:Hf.
  - cbn [fst snd]. destruct (IsNotFound e) eqn:Hnf; [|discriminate].
    intros _. rewrite Hrun by done. by rewrite ?Hf, ?Hnf.
  - destruct (objects w !! key) as [o|] eqn:Ho.
    + destruct (ClientDelete _ _ _) as [r w1] eqn:Hd. cbn [fst snd]. intros ->.
      apply ClientDelete_nil in Hd as ->.
      rewrite Hrun by (cbn; by apply wellKeyed_delete).
      rewrite ?Hf. cbn [objects addWrite addCall]. by rewrite lookup_delete_eq.
    + cbn [fst snd]. intros _. rewrite Hrun by done.
      rewrite ?Hf. cbn [objects addCall]. by rewrite Ho.
Qed.

End MoreBindings.

(** ** The further properties at concrete inputs *)

(** X9 at instance [demo] with Grafana enabled and an empty store: the pass
    after the create only looks the service up. *)
Lemma reconcileGrafanaService_idempotent_witness :
  let cr := demo true false "" in
  let p := reconcileGrafanaService (demoEnv false) cr (worldOf []) in
  reconcileGrafanaService (demoEnv false) cr p.2
  = (None, addCall p.2 (Get, suffixKey cr "grafana")).
Proof.
  cbn zeta.
  apply (reconcileGrafanaService_idempotent (demoEnv false) (demo true false "")
           (worldOf [])).
  - exact wellKeyed_empty.
  - reflexivity.
Defined.



(** X12 at instance [demo] with HA enabled and only the announce service of
    index 0 in the store: one lookup, and the services of index 1 and 2 are
    not created. *)
Lemma reconcileRedisHAAnnounceServices_stops_when_first_present_witness :
  let cr := demo false true "" in
  let w := worldOf [liveService "demo-redis-ha-announce-0"] in
  reconcileRedisHAAnnounceServices (demoEnv false) cr w
  = (None, addCall w (Get, announceKey cr 0)).
Proof.
  cbn zeta.
  apply (reconcileRedisHAAnnounceServices_stops_when_first_present (demoEnv false)
           (demo false true "")).
  - reflexivity.
  - reflexivity.
  - vm_compute. eauto.
Defined.

(** X13 at instance [demo] with HA enabled and auto-TLS wanted, the proxy
    service being in the store without the annotation: one update, then
    nothing. *)
Lemma reconcileRedisHAProxyService_self_heals_witness :
  let cr := demo false true "openshift" in
  let key := suffixKey cr "redis-ha-haproxy" in
  let w := worldOf [liveService "demo-redis-ha-haproxy"] in
  let live := (liveService "demo-redis-ha-haproxy").2 in
  let e := ensureAutoTLSAnnotation true (toService live)
             "argocd-operator-redis-tls" true in
  let p1 := reconcileRedisHAProxyService (demoEnv true) cr w in
  let p2 := reconcileRedisHAProxyService (demoEnv true) cr p1.2 in
  p1.1 = None
  ∧ calls p1.2 = calls w ++ (Get, key) :: (if e.1 then [(Update, key)] else [])
  ∧ objects p1.2 !! key = Some (if e.1 then ofService e.2 else live)
  ∧ p2 = (None, addCall p1.2 (Get, key)).
Proof.
  cbn zeta.
  apply (reconcileRedisHAProxyService_self_heals (demoEnv true)
           (demo false true "openshift")
           (worldOf [liveService "demo-redis-ha-haproxy"])
           (liveService "demo-redis-ha-haproxy").2).
  - apply wellKeyed_worldOf. repeat constructor.
  - by vm_compute.
  - reflexivity.
  - reflexivity.
Defined.



(** The services of [settledWorld] are those that [demo] without Grafana,
    HA and auto-TLS asks for. *)
Lemma settled_settledWorld :
  settled (demoEnv true) demoImports (demoServices false false "" "")
    (objects settledWorld).
Proof.
  unfold settled, annotationSettled.
  repeat split;
    try (intros live Hl; vm_compute in Hl; first [discriminate | by injection Hl as <-]);
    try (vm_compute; by eauto);
    try (intros [? Hl]; vm_compute in Hl; discriminate);
    try (intros Hl; vm_compute in Hl; discriminate).
Defined.

(** X16 at [settledWorld] with a Dex reconciler that fails: the error is
    logged, nil is returned and the store is as before. *)
Lemma reconcileServices_settled_witness :
  let cr := demoServices false false "" "" in
  let d := failingDex cr settledWorld in
  let p := reconcileServices (demoEnv true) demoImports failingDex cr settledWorld in
  p.1 = None
  ∧ objects p.2 = objects settledWorld
  ∧ (∀ c, c ∈ calls p.2 -> c ∈ calls d.2 ∨ c.1 = Get)
  ∧ logs p.2 = logs d.2 ++ match d.1 with
                           | Some err => [LogError err "error reconciling dex service"]
                           | None => []
                           end.
Proof.
  cbn zeta.
  apply (reconcileServices_settled (demoEnv true) demoImports failingDex
           (demoServices false false "" "") settledWorld).
  - exact settled_settledWorld.
  - reflexivity.
Defined.

(** X17 at instance [demo] with auto-TLS wanted for the repo server, the
    repo service being in the store without the annotation: one update,
    then nothing. *)
Lemma reconcileRepoService_converges_witness :
  let cr := demoServices false false "" "openshift" in
  let key := suffixKey cr "repo-server" in
  let w := worldOf [liveService "demo-repo-server"] in
  let p1 := reconcileRepoService (demoEnv true) demoImports cr w in
  let p2 := reconcileRepoService (demoEnv true) demoImports cr p1.2 in
  p1.1 = None
  ∧ calls p1.2
    = calls w ++ (Get, key) ::
        match objects w !! key with
        | None => [(Create, key)]
        | Some live =>
            if (ensureAutoTLSAnnotation (routeAPIFound (demoEnv true)) (toService live)
                  (ArgoCDRepoServerTLSSecretName demoImports) (RepoWantsAutoTLS cr)).1
            then [(Update, key)] else []
        end
  ∧ p2 = (None, addCall p1.2 (Get, key)).
Proof.
  cbn zeta.
  apply (reconcileRepoService_converges (demoEnv true) demoImports
           (demoServices false false "" "openshift")
           (worldOf [liveService "demo-repo-server"])).
  - apply wellKeyed_worldOf. repeat constructor.
  - apply list_elem_of_singleton. reflexivity.
  - reflexivity.
  - reflexivity.
Defined.


(** X19 at namespace [ns1] live and a config map without data in the store:
    two lookups, and the config map stays empty. *)
Lemma reconcileHAConfigMap_never_updates_witness :
  let w := worldOf [namespaceObject None; liveConfigMap] in
  reconcileHAConfigMap (demoEnv false) demoRedis w
  = (None, addCall (addCall w (Get, namespaceKey demoRedis))
             (Get, haConfigMapKey (demoEnv false) demoRedis)).
Proof.
  cbn zeta.
  apply (reconcileHAConfigMap_never_updates (demoEnv false) demoRedis _
           (namespaceObject None).2 liveConfigMap.2).
  - reflexivity.
  - reflexivity.
  - by vm_compute.
  - reflexivity.
  - reflexivity.
  - by vm_compute.
Defined.

(** X21 at namespace [ns1] live and no config map in the store: one create,
    then two lookups. *)
Lemma reconcileHAConfigMap_converges_witness :
  let w := worldOf [namespaceObject None] in
  let cmKey := haConfigMapKey (demoEnv false) demoRedis in
  let p1 := reconcileHAConfigMap (demoEnv false) demoRedis w in
  let p2 := reconcileHAConfigMap (demoEnv false) demoRedis p1.2 in
  p1.1 = None
  ∧ calls p1.2 = calls w ++ [(Get, namespaceKey demoRedis); (Get, cmKey)]
                 ++ match objects w !! cmKey with
                    | Some _ => []
                    | None => [(Create, cmKey)]
                    end
  ∧ (objects w !! cmKey = None ->
     ∃ o, objects p1.2 !! cmKey = Some o
          ∧ objPayload o = ConfigMapPayload
                             {[ haproxyCfgKey := HAProxyConfig demoRedis;
                                haproxyScriptKey := HAProxyScript demoRedis;
                                initScriptKey := InitScript demoRedis;
                                redisConfKey := Conf demoRedis;
                                sentinelConfKey := SentinelConf demoRedis ]}
          ∧ Labels (objMeta o) = resourceLabels demoRedis)
  ∧ p2 = (None, addCall (addCall p1.2 (Get, namespaceKey demoRedis)) (Get, cmKey)).
Proof.
  cbn zeta.
  apply (reconcileHAConfigMap_converges (demoEnv false) demoRedis
           (worldOf [namespaceObject None]) (namespaceObject None).2).
  - reflexivity.
  - reflexivity.
  - by vm_compute.
  - reflexivity.
  - reflexivity.
  - reflexivity.
Defined.

(** X22 at the config map of [demo] in the store: the first call deletes it,
    the second finds nothing and returns nil. *)
Lemma deleteConfigMap_idempotent_witness :
  let w := worldOf [liveConfigMap] in
  let key : ObjectKey := (KConfigMap, "ns1", "argocd-redis-ha-configmap") in
  let p1 := deleteConfigMap (demoEnv false) "argocd-redis-ha-configmap" "ns1" w in
  ((is_Some (objects w !! key) ∧ objects p1.2 = delete key (objects w)
    ∧ logs p1.2 = logs w ++ [LogInfo "DeleteConfigMap: configMap deleted"])
   ∨ (objects p1.2 = objects w ∧ logs p1.2 = logs w))
  ∧ deleteConfigMap (demoEnv false) "argocd-redis-ha-configmap" "ns1" p1.2
    = (None, addCall p1.2 (Delete, key)).
Proof.
  cbn zeta.
  apply (deleteConfigMap_idempotent (demoEnv false) "argocd-redis-ha-configmap" "ns1"
           (worldOf [liveConfigMap])).
  by vm_compute.
Defined.

(** X24 with a scheme that does not know the ArgoCD kind, on a store with
    the live namespace alone: the health config map is created without an
    owner. *)
Lemma reconcileHAHealthConfigMap_creates_witness :
  let w := worldOf [namespaceObject None] in
  let key := haHealthConfigMapKey demoRedis demoHealth in
  let p := reconcileHAHealthConfigMap schemelessEnv demoRedis demoHealth w in
  match objects w !! key with
  | Some _ => p = (None, addCall (addCall w (Get, namespaceKey demoRedis)) (Get, key))
  | None =>
      p.1 = None
      ∧ calls p.2 = calls w ++ [(Get, namespaceKey demoRedis); (Get, key); (Create, key)]
      ∧ ∃ o, objects p.2 = <[key := o]> (objects w)
             ∧ objPayload o = ConfigMapPayload
                                {[ livenessScriptKey := LivenessScript demoHealth;
                                   readinessScriptKey := ReadinessScript demoHealth;
                                   sentinelLivenessScriptKey :=
                                     SentinelLivenessScript demoHealth ]}
             ∧ (if bool_decide ("ArgoCD" ∈ Scheme schemelessEnv)
                then OwnerReferences (objMeta o)
                     = [ {| OwnerKind := "ArgoCD";
                            OwnerName := Name (crMeta (Instance demoRedis));
                            Controller := true |} ]
                     ∧ logs p.2
                       = logs w ++ [LogInfo "reconcileHAHealthConfigMap: configMap created"]
                else OwnerReferences (objMeta o) = []
                     ∧ ∃ err,
                         logs p.2
                         = logs w
                           ++ [LogError err
                                 "reconcileHAHealthConfigMap: failed to set owner reference for configMap";
                               LogInfo "reconcileHAHealthConfigMap: configMap created"])
  end.
Proof.
  cbn zeta.
  apply (reconcileHAHealthConfigMap_creates schemelessEnv demoRedis demoHealth
           (worldOf [namespaceObject None]) (namespaceObject None).2).
  - reflexivity.
  - reflexivity.
  - by vm_compute.
  - reflexivity.
  - reflexivity.
  - reflexivity.
Defined.

(** X26 at the binding of [demo] in the store: the first call deletes it,
    the second only looks it up. *)
Lemma DeleteClusterRoleBinding_idempotent_witness :
  let w := worldOf [liveBinding] in
  let p1 := DeleteClusterRoleBinding (demoEnv false) "demo-argocd-server" w in
  DeleteClusterRoleBinding (demoEnv false) "demo-argocd-server" p1.2
  = (None, addCall p1.2 (Get, (KClusterRoleBinding, "", "demo-argocd-server"))).
Proof.
  cbn zeta.
  apply (DeleteClusterRoleBinding_idempotent (demoEnv false) "demo-argocd-server"
           (worldOf [liveBinding])).
  - apply wellKeyed_worldOf. repeat constructor.
  - by vm_compute.
Defined.
